(** * shm_win_patch: the patched [SharedMemory.__init__]

    A shallow embedding of [src/shm_win_patch.py].  The module replaces
    [multiprocessing.shared_memory.SharedMemory.__init__] by
    [_SharedMemory_init].  The function is a sequence of calls into the
    operating system ([_posixshmem], [os], [mmap], [_winapi], the resource
    tracker) wrapped in [try]/[except]/[finally] blocks, so it is embedded in
    a state-and-exception monad whose state holds the handle being
    initialised ([self]), the operating system, the entropy read by
    [secrets.token_hex], and the log of every call made so far. *)

From Stdlib Require Import ZArith NArith List String Ascii Bool Lia.
From Stdlib Require Import Strings.Byte.
Import ListNotations.
Local Open Scope string_scope.
Local Open Scope Z_scope.

(** ** Python values used by the function *)

(** Exceptions, by class.  [FileExistsError] and [FileNotFoundError] are
    subclasses of [OSError]; the other classes are not. *)
Inductive exn : Type :=
| ValueError (msg : string)
| TypeError (msg : string)
| AssertionError (msg : string)
| OverflowError (msg : string)
| OSError (errno : Z) (strerror : string)
| FileExistsError (errno : Z) (strerror : string)
                  (filename : option string) (winerror : option Z)
| FileNotFoundError (errno : Z) (strerror : string) (filename : option string).

(** [isinstance(e, OSError)] *)
Definition is_OSError (e : exn) : bool :=
  match e with
  | OSError _ _ | FileExistsError _ _ _ _ | FileNotFoundError _ _ _ => true
  | _ => false
  end.

(** [isinstance(e, FileExistsError)] *)
Definition is_FileExistsError (e : exn) : bool :=
  match e with
  | FileExistsError _ _ _ _ => true
  | _ => false
  end.

(** [mmap.ACCESS_*] *)
Inductive access_mode : Type :=
| ACCESS_DEFAULT | ACCESS_READ | ACCESS_WRITE | ACCESS_COPY.

(** An [mmap.mmap] object: the identity the operating system gave it and the
    arguments it was opened with. *)
Record mmap_obj : Type := {
  mm_id : Z;
  mm_fileno : Z;
  mm_length : Z;
  mm_tagname : option string;
  mm_access : access_mode
}.

(** [memoryview(m)]: the buffer of a mapping opened with [ACCESS_READ] is
    read-only, every other access mode gives a writable buffer. *)
Record memoryview_obj : Type := {
  mv_obj : mmap_obj;
  mv_readonly : bool
}.

Definition memoryview (m : mmap_obj) : memoryview_obj :=
  {| mv_obj := m;
     mv_readonly := match mm_access m with ACCESS_READ => true | _ => false end |}.

(** The attributes of a [SharedMemory] instance that [__init__] reads or
    writes.  [_size] has no class-level default: it exists only once
    [__init__] has reached its last lines. *)
Record SharedMemory : Type := {
  _name : option string;
  _fd : Z;
  _mmap : option mmap_obj;
  _buf : option memoryview_obj;
  _flags : Z;
  _mode : Z;
  _prepend_leading_slash : bool;
  _size : option Z
}.

Definition set_name (v : option string) (h : SharedMemory) : SharedMemory :=
  {| _name := v; _fd := _fd h; _mmap := _mmap h; _buf := _buf h;
     _flags := _flags h; _mode := _mode h;
     _prepend_leading_slash := _prepend_leading_slash h; _size := _size h |}.

Definition set_fd (v : Z) (h : SharedMemory) : SharedMemory :=
  {| _name := _name h; _fd := v; _mmap := _mmap h; _buf := _buf h;
     _flags := _flags h; _mode := _mode h;
     _prepend_leading_slash := _prepend_leading_slash h; _size := _size h |}.

Definition set_mmap (v : option mmap_obj) (h : SharedMemory) : SharedMemory :=
  {| _name := _name h; _fd := _fd h; _mmap := v; _buf := _buf h;
     _flags := _flags h; _mode := _mode h;
     _prepend_leading_slash := _prepend_leading_slash h; _size := _size h |}.

Definition set_buf (v : option memoryview_obj) (h : SharedMemory) : SharedMemory :=
  {| _name := _name h; _fd := _fd h; _mmap := _mmap h; _buf := v;
     _flags := _flags h; _mode := _mode h;
     _prepend_leading_slash := _prepend_leading_slash h; _size := _size h |}.

Definition set_flags (v : Z) (h : SharedMemory) : SharedMemory :=
  {| _name := _name h; _fd := _fd h; _mmap := _mmap h; _buf := _buf h;
     _flags := v; _mode := _mode h;
     _prepend_leading_slash := _prepend_leading_slash h; _size := _size h |}.

Definition set_size (v : option Z) (h : SharedMemory) : SharedMemory :=
  {| _name := _name h; _fd := _fd h; _mmap := _mmap h; _buf := _buf h;
     _flags := _flags h; _mode := _mode h;
     _prepend_leading_slash := _prepend_leading_slash h; _size := v |}.

(** ** The modules the function imports *)

(** The part of the [os] module the function reads: [os.name] and the three
    open flags, whose values differ between operating systems. *)
Record os_module : Type := {
  os_name : string;
  O_CREAT : Z;
  O_EXCL : Z;
  O_RDWR : Z
}.

(** [_winapi] and [errno] constants (Windows SDK and POSIX values). *)
Definition INVALID_HANDLE_VALUE : Z := -1.
Definition NULL : Z := 0.
Definition PAGE_READWRITE : Z := 4.
Definition FILE_MAP_READ : Z := 4.
Definition ERROR_ALREADY_EXISTS : Z := 183.
Definition EEXIST : Z := 17.
(** [os.strerror(errno.EEXIST)] *)
Definition strerror_EEXIST : string := "File exists".

(** Every call the function makes into the operating system, the [mmap]
    module, the resource tracker and the inherited [unlink] method.  The
    arguments are the ones the source passes, in the source's order. *)
Inductive syscall : Type :=
| shm_open (name : string) (flags mode : Z)
| ftruncate (fd length : Z)
| fstat (fd : Z)
| mmap_mmap (fileno length : Z) (tagname : option string) (access : access_mode)
| unlink (name : option string)
| register (name : option string) (rtype : string)
| CreateFileMapping (hfile security protect size_hi size_lo : Z) (name : string)
| GetLastError
| CloseHandle (handle : Z)
| OpenFileMapping (desired_access : Z) (inherit : bool) (name : option string)
| MapViewOfFile (handle desired_access offset_hi offset_lo nbytes : Z)
| VirtualQuerySize (address : Z)
| UnmapViewOfFile (address : Z).

(** What a call gives back: a value (a descriptor, a handle, an address, a
    size, an error code, or 0 for [None]) or a raised exception. *)
Inductive result (A : Type) : Type :=
| Returns (a : A)
| Raises (e : exn).
Arguments Returns {A} a.
Arguments Raises {A} e.

(** An operating system: a state and its reaction to each call. *)
Class OS (W : Type) : Type := {
  os_call : syscall -> W -> result Z * W
}.

(** ** The monad *)

(** One entry of the call log: the call and what it gave back. *)
Definition event : Type := syscall * result Z.

Record state (W : Type) : Type := {
  self : SharedMemory;
  world : W;
  entropy : nat -> byte;
  cursor : nat;
  trace : list event
}.
Arguments self {W} s.
Arguments world {W} s.
Arguments entropy {W} s.
Arguments cursor {W} s.
Arguments trace {W} s.

(** How a computation ends: normally, with an exception, or (for the two
    [while True] loops only) with the iteration budget used up. *)
Inductive outcome (A : Type) : Type :=
| Ok (a : A)
| Raise (e : exn)
| OutOfFuel.
Arguments Ok {A} a.
Arguments Raise {A} e.
Arguments OutOfFuel {A}.

Definition M (W A : Type) : Type := state W -> outcome A * state W.

Definition ret {W A} (a : A) : M W A := fun s => (Ok a, s).

Definition bind {W A B} (m : M W A) (k : A -> M W B) : M W B :=
  fun s =>
    match m s with
    | (Ok a, s') => k a s'
    | (Raise e, s') => (Raise e, s')
    | (OutOfFuel, s') => (OutOfFuel, s')
    end.

Definition raise {W A} (e : exn) : M W A := fun s => (Raise e, s).

Definition out_of_fuel {W A} : M W A := fun s => (OutOfFuel, s).

Declare Scope py_scope.
Delimit Scope py_scope with py.
Notation "x <- m ;; k" := (bind m (fun x => k))
  (at level 61, m at next level, right associativity) : py_scope.
Notation "m ;; k" := (bind m (fun _ => k))
  (at level 61, right associativity) : py_scope.
Local Open Scope py_scope.

(** Reading and writing the attributes of [self]. *)
Definition getattr {W A} (f : SharedMemory -> A) : M W A :=
  fun s => (Ok (f (self s)), s).

Definition setattr {W} (f : SharedMemory -> SharedMemory) : M W unit :=
  fun s => (Ok tt,
            {| self := f (self s); world := world s; entropy := entropy s;
               cursor := cursor s; trace := trace s |}).

(** A call: the operating system reacts, and the call is logged with its
    result. *)
Definition call {W} `{OS W} (c : syscall) : M W Z :=
  fun s =>
    let (r, w) := os_call c (world s) in
    let s' := {| self := self s; world := w; entropy := entropy s;
                 cursor := cursor s; trace := trace s ++ [(c, r)] |} in
    match r with
    | Returns v => (Ok v, s')
    | Raises e => (Raise e, s')
    end.

(** [try: body except <class>: handler].  Inside the handler the caught
    exception is at hand, for a bare [raise]. *)
Definition try_except {W A} (body : M W A) (catches : exn -> bool)
                      (handler : exn -> M W A) : M W A :=
  fun s =>
    match body s with
    | (Raise e, s') => if catches e then handler e s' else (Raise e, s')
    | r => r
    end.

(** [try: body finally: cleanup].  The cleanup runs however the body ends
    (normally, by an exception, or by [continue]); an exception raised by
    the cleanup replaces the body's outcome. *)
Definition try_finally {W A} (body : M W A) (cleanup : M W unit) : M W A :=
  fun s =>
    match body s with
    | (OutOfFuel, s') => (OutOfFuel, s')
    | (r, s') =>
        match cleanup s' with
        | (Ok _, s'') => (r, s'')
        | (Raise e, s'') => (Raise e, s'')
        | (OutOfFuel, s'') => (OutOfFuel, s'')
        end
    end.

(** ** [secrets.token_hex] *)

Definition hex_alphabet : list ascii :=
  list_ascii_of_string "0123456789abcdef".

Definition hex_digit (n : N) : ascii := nth (N.to_nat n) hex_alphabet "0"%char.

(** [binascii.hexlify]: two lower-case hexadecimal digits per byte. *)
Fixpoint hexlify (bs : list byte) : string :=
  match bs with
  | [] => EmptyString
  | b :: bs' =>
      String (hex_digit (N.div (Byte.to_N b) 16))
        (String (hex_digit (N.modulo (Byte.to_N b) 16)) (hexlify bs'))
  end.

(** [secrets.token_hex(nbytes)]: reads [nbytes] bytes of entropy and returns
    them in hexadecimal. *)
Definition token_hex {W} (nbytes : nat) : M W string :=
  fun s =>
    (Ok (hexlify (map (entropy s) (seq (cursor s) nbytes))),
     {| self := self s; world := world s; entropy := entropy s;
        cursor := (cursor s + nbytes)%nat; trace := trace s |}).

Definition is_hex_char (c : ascii) : bool :=
  existsb (Ascii.eqb c) hex_alphabet.

Fixpoint string_forallb (p : ascii -> bool) (s : string) : bool :=
  match s with
  | EmptyString => true
  | String c s' => p c && string_forallb p s'
  end.

(** ** The module *)

Section ShmWinPatch.

Context {W : Type} `{OS W}.
Variable os : os_module.

Definition _USE_POSIX : bool := negb (String.eqb (os_name os) "nt").

Definition _O_CREX : Z := Z.lor (O_CREAT os) (O_EXCL os).

Definition _SHM_SAFE_NAME_LENGTH : Z := 14.

Definition _SHM_NAME_PREFIX : string :=
  if _USE_POSIX then "/psm_" else "wnsm_".

Definition len (s : string) : Z := Z.of_nat (String.length s).

(** [_make_filename()] *)
Definition _make_filename : M W string :=
  let nbytes := (_SHM_SAFE_NAME_LENGTH - len _SHM_NAME_PREFIX) / 2 in
  if negb (nbytes >=? 2) then raise (AssertionError "_SHM_NAME_PREFIX too long")
  else
    hex <- token_hex (Z.to_nat nbytes) ;;
    let name := _SHM_NAME_PREFIX ++ hex in
    if negb (len name <=? _SHM_SAFE_NAME_LENGTH) then raise (AssertionError "")
    else ret name.

(** How the body of a [while True] loop ends when it does not raise:
    [continue] starts the next iteration, falling out of the [try] block
    reaches the [break]. *)
Inductive loop_exit : Type :=
| Continue
| Break.

(** Lines 68-79: the POSIX creation loop for an omitted name. *)
Fixpoint posix_name_loop (fuel : nat) : M W string :=
  match fuel with
  | O => out_of_fuel
  | S fuel' =>
      name <- _make_filename ;;
      flags <- getattr _flags ;;
      mode <- getattr _mode ;;
      ctl <- try_except
               (fd <- call (shm_open name flags mode) ;;
                setattr (set_fd fd) ;;
                ret Break)
               is_FileExistsError
               (fun _ => ret Continue) ;;
      match ctl with
      | Continue => posix_name_loop fuel'
      | Break => setattr (set_name (Some name)) ;; ret name
      end
  end.

(** Lines 67-99: the POSIX branch.  Returns the local variable [size]. *)
Definition posix_branch (fuel : nat) (name : option string) (create : bool)
                        (size : Z) : M W Z :=
  match name with
  | None => posix_name_loop fuel ;; ret tt
  | Some n =>
      slash <- getattr _prepend_leading_slash ;;
      let name := if slash : bool then "/" ++ n else n in
      flags <- getattr _flags ;;
      mode <- getattr _mode ;;
      fd <- call (shm_open name flags mode) ;;
      setattr (set_fd fd) ;;
      setattr (set_name (Some name))
  end ;;
  size <- try_except
            ((if create && negb (size =? 0)
              then fd <- getattr _fd ;; call (ftruncate fd size) ;; ret tt
              else ret tt) ;;
             fd <- getattr _fd ;;
             st_size <- call (fstat fd) ;;
             let size := st_size in
             fd <- getattr _fd ;;
             m <- call (mmap_mmap fd size None ACCESS_DEFAULT) ;;
             setattr (set_mmap (Some {| mm_id := m; mm_fileno := fd;
                                        mm_length := size; mm_tagname := None;
                                        mm_access := ACCESS_DEFAULT |})) ;;
             ret size)
            is_OSError
            (fun e =>
               n <- getattr _name ;;
               call (unlink n) ;;
               raise e) ;;
  n <- getattr _name ;;
  call (register n "shared_memory") ;;
  ret size.

(** Lines 105-134: the Windows creation loop. *)
Fixpoint windows_create_loop (fuel : nat) (name : option string) (size : Z)
  : M W unit :=
  match fuel with
  | O => out_of_fuel
  | S fuel' =>
      temp_name <- match name with
                   | None => _make_filename
                   | Some n => ret n
                   end ;;
      h_map <- call (CreateFileMapping INVALID_HANDLE_VALUE NULL PAGE_READWRITE
                       (Z.land (Z.shiftr size 32) 0xFFFFFFFF)
                       (Z.land size 0xFFFFFFFF)
                       temp_name) ;;
      ctl <- try_finally
               (last_error_code <- call GetLastError ;;
                if last_error_code =? ERROR_ALREADY_EXISTS
                then match name with
                     | Some n =>
                         raise (FileExistsError EEXIST strerror_EEXIST (Some n)
                                  (Some ERROR_ALREADY_EXISTS))
                     | None => ret Continue
                     end
                else
                  m <- call (mmap_mmap (-1) size (Some temp_name) ACCESS_READ) ;;
                  setattr (set_mmap (Some {| mm_id := m; mm_fileno := -1;
                                             mm_length := size;
                                             mm_tagname := Some temp_name;
                                             mm_access := ACCESS_READ |})) ;;
                  ret Break)
               (call (CloseHandle h_map) ;; ret tt) ;;
      match ctl with
      | Continue => windows_create_loop fuel' name size
      | Break => setattr (set_name (Some temp_name))
      end
  end.

(** Lines 136-160: the Windows attach path.  Returns the local variable
    [size]. *)
Definition windows_attach (name : option string) : M W Z :=
  setattr (set_name name) ;;
  h_map <- call (OpenFileMapping FILE_MAP_READ false name) ;;
  p_buf <- try_finally
             (call (MapViewOfFile h_map FILE_MAP_READ 0 0 0))
             (call (CloseHandle h_map) ;; ret tt) ;;
  try_finally
    (size <- call (VirtualQuerySize p_buf) ;;
     m <- call (mmap_mmap (-1) size name ACCESS_DEFAULT) ;;
     setattr (set_mmap (Some {| mm_id := m; mm_fileno := -1;
                                mm_length := size; mm_tagname := name;
                                mm_access := ACCESS_DEFAULT |})) ;;
     ret size)
    (call (UnmapViewOfFile p_buf) ;; ret tt).

(** [_SharedMemory_init(self, name=None, create=False, size=0)].  [self] is
    the handle held in the state; [fuel] bounds the iterations of the
    [while True] loop the call may enter. *)
Definition _SharedMemory_init (fuel : nat) (name : option string)
                              (create : bool) (size : Z) : M W unit :=
  (if negb (size >=? 0)
   then raise (ValueError "'size' must be a positive integer")
   else ret tt) ;;
  (if create
   then setattr (set_flags (Z.lor _O_CREX (O_RDWR os))) ;;
        if size =? 0
        then raise (ValueError "'size' must be a positive number different from zero")
        else ret tt
   else ret tt) ;;
  flags <- getattr _flags ;;
  (if (match name with None => true | Some _ => false end)
      && (Z.land flags (O_EXCL os) =? 0)
   then raise (ValueError "'name' can only be None if create=True")
   else ret tt) ;;
  size <- (if _USE_POSIX
           then posix_branch fuel name create size
           else if create
                then windows_create_loop fuel name size ;; ret size
                else windows_attach name) ;;
  setattr (set_size (Some size)) ;;
  m <- getattr _mmap ;;
  match m with
  | Some m => setattr (set_buf (Some (memoryview m)))
  | None => raise (TypeError "memoryview: a bytes-like object is required, not 'NoneType'")
  end.

End ShmWinPatch.

(** ** Two reference kernels

    The function only orchestrates primitives of the operating system.  To
    run it on concrete inputs the primitives are given their documented
    behaviour on a small kernel state: a POSIX shared-memory namespace with
    descriptors, and a Windows section namespace in which a section lives as
    long as a handle, a view or a mapping refers to it. *)

Fixpoint assoc {K V : Type} (eqb : K -> K -> bool) (k : K) (l : list (K * V))
  : option V :=
  match l with
  | [] => None
  | (k', v) :: l' => if eqb k k' then Some v else assoc eqb k l'
  end.

Fixpoint remove_key {K V : Type} (eqb : K -> K -> bool) (k : K)
                    (l : list (K * V)) : list (K * V) :=
  match l with
  | [] => []
  | (k', v) :: l' =>
      if eqb k k' then remove_key eqb k l' else (k', v) :: remove_key eqb k l'
  end.

(** The largest [off_t] / [Py_ssize_t]: a Python integer above it is refused
    with [OverflowError] when it is converted for the C call. *)
Definition SSIZE_MAX : Z := 2 ^ 63 - 1.

Module Posix.

Record kernel : Type := {
  names : list (string * Z);      (* name -> object *)
  sizes : list (Z * Z);           (* object -> length in bytes *)
  fds : list (Z * Z);             (* open descriptor -> object *)
  mappings : list (Z * Z);        (* mapping -> object *)
  next : Z;                       (* next unused object / descriptor number *)
  tracked : list (option string * string)  (* resource tracker registrations *)
}.

Definition empty : kernel :=
  {| names := []; sizes := []; fds := []; mappings := []; next := 3;
     tracked := [] |}.

Definition EBADF : Z := 9.
Definition ENOENT : Z := 2.
Definition EINVAL : Z := 22.
Definition ENOSYS : Z := 38.
Definition ENOMEM : Z := 12.

(** The size of a user address space: no mapping can be longer. *)
Definition ADDRESS_SPACE : Z := 2 ^ 47.

Definition has_flag (flags bit : Z) : bool := negb (Z.land flags bit =? 0).

Definition step (os : os_module) (c : syscall) (k : kernel)
  : result Z * kernel :=
  match c with
  | shm_open name flags mode =>
      match assoc String.eqb name (names k) with
      | Some obj =>
          if has_flag flags (O_CREAT os) && has_flag flags (O_EXCL os)
          then (Raises (FileExistsError EEXIST strerror_EEXIST (Some name) None), k)
          else (Returns (next k),
                {| names := names k; sizes := sizes k;
                   fds := (next k, obj) :: fds k; mappings := mappings k;
                   next := next k + 1; tracked := tracked k |})
      | None =>
          if has_flag flags (O_CREAT os)
          then (Returns (next k + 1),
                {| names := (name, next k) :: names k;
                   sizes := (next k, 0) :: sizes k;
                   fds := (next k + 1, next k) :: fds k; mappings := mappings k;
                   next := next k + 2; tracked := tracked k |})
          else (Raises (FileNotFoundError ENOENT "No such file or directory"
                          (Some name)), k)
      end
  | ftruncate fd length =>
      if SSIZE_MAX <? length
      then (Raises (OverflowError "Python int too large to convert to C long"), k)
      else
        match assoc Z.eqb fd (fds k) with
        | Some obj =>
            if length <? 0 then (Raises (OSError EINVAL "Invalid argument"), k)
            else (Returns 0,
                  {| names := names k; sizes := (obj, length) :: sizes k;
                     fds := fds k; mappings := mappings k; next := next k;
                     tracked := tracked k |})
        | None => (Raises (OSError EBADF "Bad file descriptor"), k)
        end
  | fstat fd =>
      match assoc Z.eqb fd (fds k) with
      | Some obj =>
          match assoc Z.eqb obj (sizes k) with
          | Some n => (Returns n, k)
          | None => (Returns 0, k)
          end
      | None => (Raises (OSError EBADF "Bad file descriptor"), k)
      end
  | mmap_mmap fd length _ _ =>
      if SSIZE_MAX <? length
      then (Raises (OverflowError "Python int too large to convert to C ssize_t"), k)
      else
        match assoc Z.eqb fd (fds k) with
        | Some obj =>
            let n := match assoc Z.eqb obj (sizes k) with
                     | Some n => n
                     | None => 0
                     end in
            if n =? 0 then (Raises (ValueError "cannot mmap an empty file"), k)
            else if n <? length
            then (Raises (ValueError "mmap length is greater than file size"), k)
            else if ADDRESS_SPACE <? length
            then (Raises (OSError ENOMEM "Cannot allocate memory"), k)
            else (Returns (next k),
                  {| names := names k; sizes := sizes k; fds := fds k;
                     mappings := (next k, obj) :: mappings k;
                     next := next k + 1; tracked := tracked k |})
        | None => (Raises (OSError EBADF "Bad file descriptor"), k)
        end
  | unlink None => (Returns 0, k)
  | unlink (Some name) =>
      match assoc String.eqb name (names k) with
      | Some _ =>
          (Returns 0,
           {| names := remove_key String.eqb name (names k); sizes := sizes k;
              fds := fds k; mappings := mappings k; next := next k;
              tracked := tracked k |})
      | None => (Raises (FileNotFoundError ENOENT "No such file or directory"
                           (Some name)), k)
      end
  | register name rtype =>
      (Returns 0,
       {| names := names k; sizes := sizes k; fds := fds k;
          mappings := mappings k; next := next k;
          tracked := (name, rtype) :: tracked k |})
  | _ => (Raises (OSError ENOSYS "Function not implemented"), k)
  end.

End Posix.

Module Windows.

Definition PAGESIZE : Z := 4096.

Record kernel : Type := {
  sections : list (string * Z);   (* section name -> length in bytes *)
  refs : list (Z * string);       (* handle, view or mapping -> section *)
  next : Z;                       (* next unused handle / address number *)
  last_error : Z
}.

Definition empty : kernel :=
  {| sections := []; refs := []; next := 100; last_error := 0 |}.

Definition referenced (name : string) (l : list (Z * string)) : bool :=
  existsb (fun p => String.eqb name (snd p)) l.

(** Dropping a reference: the section goes with its last reference. *)
Definition release (id : Z) (k : kernel) : kernel :=
  match assoc Z.eqb id (refs k) with
  | Some name =>
      let refs' := remove_key Z.eqb id (refs k) in
      {| sections := if referenced name refs' then sections k
                     else remove_key String.eqb name (sections k);
         refs := refs'; next := next k; last_error := last_error k |}
  | None => k
  end.

(** Opening one more reference to a section. *)
Definition acquire (name : string) (err : Z) (k : kernel) : Z * kernel :=
  (next k,
   {| sections := sections k; refs := (next k, name) :: refs k;
      next := next k + 1; last_error := err |}).

Definition create_or_open (name : string) (length : Z) (k : kernel)
  : Z * kernel :=
  match assoc String.eqb name (sections k) with
  | Some _ => acquire name ERROR_ALREADY_EXISTS k
  | None =>
      acquire name 0
        {| sections := (name, length) :: sections k; refs := refs k;
           next := next k; last_error := last_error k |}
  end.

Definition round_up (n granule : Z) : Z :=
  ((n + granule - 1) / granule) * granule.

Definition step (c : syscall) (k : kernel) : result Z * kernel :=
  match c with
  | CreateFileMapping hfile _ _ size_hi size_lo name =>
      let length := size_hi * 2 ^ 32 + size_lo in
      if length =? 0
      then (Raises (OSError 22 "The parameter is incorrect"), k)
      else let (h, k') := create_or_open name length k in (Returns h, k')
  | GetLastError => (Returns (last_error k), k)
  | CloseHandle h => (Returns 0, release h k)
  | OpenFileMapping _ _ (Some name) =>
      match assoc String.eqb name (sections k) with
      | Some _ => let (h, k') := acquire name 0 k in (Returns h, k')
      | None => (Raises (FileNotFoundError 2 "The system cannot find the file specified"
                           (Some name)), k)
      end
  | OpenFileMapping _ _ None =>
      (Raises (TypeError "OpenFileMapping() argument 3 must be str, not None"), k)
  | MapViewOfFile h _ _ _ _ =>
      match assoc Z.eqb h (refs k) with
      | Some name => let (p, k') := acquire name 0 k in (Returns p, k')
      | None => (Raises (OSError 9 "The handle is invalid"), k)
      end
  | VirtualQuerySize p =>
      match assoc Z.eqb p (refs k) with
      | Some name =>
          match assoc String.eqb name (sections k) with
          | Some n => (Returns (round_up n PAGESIZE), k)
          | None => (Raises (OSError 22 "Attempt to access invalid address"), k)
          end
      | None => (Raises (OSError 22 "Attempt to access invalid address"), k)
      end
  | UnmapViewOfFile p =>
      match assoc Z.eqb p (refs k) with
      | Some _ => (Returns 1, release p k)
      | None => (Returns 0, k)
      end
  | mmap_mmap _ length (Some tagname) _ =>
      if SSIZE_MAX <? length
      then (Raises (OverflowError "Python int too large to convert to C ssize_t"), k)
      else if length <=? 0
      then (Raises (ValueError "cannot mmap an empty file"), k)
      else let (m, k') := create_or_open tagname length k in (Returns m, k')
  | unlink _ => (Returns 0, k)
  | register _ _ => (Returns 0, k)
  | _ => (Raises (OSError 38 "Function not implemented"), k)
  end.

End Windows.

(** ** Concrete platforms and handles *)

(** Linux and Windows values of the [os] constants. *)
Definition linux : os_module :=
  {| os_name := "posix"; O_CREAT := 64; O_EXCL := 128; O_RDWR := 2 |}.

Definition nt : os_module :=
  {| os_name := "nt"; O_CREAT := 256; O_EXCL := 1024; O_RDWR := 2 |}.

#[export] Instance posix_OS : OS Posix.kernel := {| os_call := Posix.step linux |}.

#[export] Instance windows_OS : OS Windows.kernel := {| os_call := Windows.step |}.

(** A newly allocated [SharedMemory] instance: every attribute still has
    the default of the class the function is installed into. *)
Definition new_handle (os : os_module) : SharedMemory :=
  {| _name := None; _fd := -1; _mmap := None; _buf := None;
     _flags := O_RDWR os; _mode := 384;
     _prepend_leading_slash := _USE_POSIX os; _size := None |}.

(** A sample entropy source. *)
Definition sample_entropy (n : nat) : byte :=
  match Byte.of_N (N.modulo (N.of_nat n * 37 + 11) 256) with
  | Some b => b
  | None => x00
  end.

(** The state in which [SharedMemory(...)] calls [__init__]: a new handle,
    an empty call log. *)
Definition boot {W : Type} (os : os_module) (w : W) : state W :=
  {| self := new_handle os; world := w; entropy := sample_entropy;
     cursor := 0%nat; trace := [] |}.

(** [open] of the specification: the constructor call on a new handle. *)
Definition open_posix (name : option string) (create : bool) (size : Z)
                      (k : Posix.kernel) : outcome unit * state Posix.kernel :=
  _SharedMemory_init linux 8 name create size (boot linux k).

Definition open_windows (name : option string) (create : bool) (size : Z)
                        (k : Windows.kernel)
  : outcome unit * state Windows.kernel :=
  _SharedMemory_init nt 8 name create size (boot nt k).

(** ** Vocabulary of the properties *)

(** What [_make_filename] does to the state: it reads four bytes of entropy
    and nothing else. *)
Definition after_token {W : Type} (s : state W) : state W :=
  {| self := self s; world := world s; entropy := entropy s;
     cursor := (cursor s + 4)%nat; trace := trace s |}.


(** The state after an assignment to an attribute of [self]. *)
Definition assigned {W : Type} (f : SharedMemory -> SharedMemory) (s : state W)
  : state W :=
  {| self := f (self s); world := world s; entropy := entropy s;
     cursor := cursor s; trace := trace s |}.

(** The two messages with which a size is refused, and the one with which
    a missing name is. *)
Definition InvalidSize (e : exn) : Prop :=
  e = ValueError "'size' must be a positive integer"
  \/ e = ValueError "'size' must be a positive number different from zero".

Definition MissingName : exn :=
  ValueError "'name' can only be None if create=True".

(** The calls of a log, without their results. *)
Definition calls (tr : list event) : list syscall := map fst tr.

(** The state after the argument checks have passed: a creation request
    has set [_flags] by then. *)
Definition checked {W : Type} (os : os_module) (create : bool) (s : state W)
  : state W :=
  if create then assigned (set_flags (Z.lor (_O_CREX os) (O_RDWR os))) s
  else s.

(** Lines 63-160, the platform branch, and lines 161-162, the two
    assignments that end the function. *)
Definition platform_branch {W : Type} `{OS W} (os : os_module) (fuel : nat)
    (name : option string) (create : bool) (size : Z) : M W Z :=
  if _USE_POSIX os then posix_branch os fuel name create size
  else if create
       then bind (windows_create_loop os fuel name size) (fun _ => ret size)
       else windows_attach name.

Definition finish {W : Type} (size : Z) : M W unit :=
  bind (setattr (set_size (Some size)))
    (fun _ =>
       bind (getattr _mmap)
         (fun m =>
            match m with
            | Some m => setattr (set_buf (Some (memoryview m)))
            | None =>
                raise (TypeError
                  "memoryview: a bytes-like object is required, not 'NoneType'")
            end)).

(** Arguments that pass the three checks of lines 54-61. *)
Definition valid_arguments {W : Type} (os : os_module) (name : option string)
    (create : bool) (size : Z) (s : state W) : Prop :=
  0 <= size
  /\ (create = true -> size <> 0)
  /\ (name = None ->
      Z.land (_flags (self (checked os create s))) (O_EXCL os) <> 0).

(** The calls of lines 110-117 and 130, as the creation loop makes them for
    the candidate name [tname]. *)
Definition reserve_call (size : Z) (tname : string) : syscall :=
  CreateFileMapping INVALID_HANDLE_VALUE NULL PAGE_READWRITE
    (Z.land (Z.shiftr size 32) 0xFFFFFFFF) (Z.land size 0xFFFFFFFF) tname.

Definition map_call (size : Z) (tname : string) : syscall :=
  mmap_mmap (-1) size (Some tname) ACCESS_READ.

(** The mapping object line 130 stores in [self._mmap]. *)
Definition creator_mapping (m size : Z) (tname : string) : mmap_obj :=
  {| mm_id := m; mm_fileno := -1; mm_length := size;
     mm_tagname := Some tname; mm_access := ACCESS_READ |}.




(** The calls of the Windows attach path, lines 140-160, for the handle
    [h], the probe view [p] and the size [q] the system reports. *)
Definition open_call (name : option string) : syscall :=
  OpenFileMapping FILE_MAP_READ false name.

Definition probe_call (h : Z) : syscall :=
  MapViewOfFile h FILE_MAP_READ 0 0 0.

Definition attach_call (q : Z) (name : option string) : syscall :=
  mmap_mmap (-1) q name ACCESS_DEFAULT.

(** The mapping object line 158 stores in [self._mmap]. *)
Definition attacher_mapping (m q : Z) (name : option string) : mmap_obj :=
  {| mm_id := m; mm_fileno := -1; mm_length := q; mm_tagname := name;
     mm_access := ACCESS_DEFAULT |}.

(** Lines 67-87: how the POSIX branch obtains the descriptor. *)
Definition posix_name_phase {W : Type} `{OS W} (os : os_module) (fuel : nat)
    (name : option string) : M W unit :=
  match name with
  | None => bind (posix_name_loop os fuel) (fun _ => ret tt)
  | Some n =>
      bind (getattr _prepend_leading_slash) (fun slash =>
      let name := if slash : bool then "/" ++ n else n in
      bind (getattr _flags) (fun flags =>
      bind (getattr _mode) (fun mode =>
      bind (call (shm_open name flags mode)) (fun fd =>
      bind (setattr (set_fd fd)) (fun _ =>
      setattr (set_name (Some name)))))))
  end.

(** Lines 88-96: the [try] block of the POSIX branch with its handler. *)
Definition posix_map_phase {W : Type} `{OS W} (create : bool) (size : Z)
  : M W Z :=
  try_except
    (bind (if create && negb (size =? 0)
           then bind (getattr _fd) (fun fd =>
                bind (call (ftruncate fd size)) (fun _ => ret tt))
           else ret tt) (fun _ =>
     bind (getattr _fd) (fun fd =>
     bind (call (fstat fd)) (fun st_size =>
     let size := st_size in
     bind (getattr _fd) (fun fd =>
     bind (call (mmap_mmap fd size None ACCESS_DEFAULT)) (fun m =>
     bind (setattr (set_mmap (Some {| mm_id := m; mm_fileno := fd;
                                      mm_length := size; mm_tagname := None;
                                      mm_access := ACCESS_DEFAULT |})))
          (fun _ => ret size)))))))
    is_OSError
    (fun e =>
       bind (getattr _name) (fun n =>
       bind (call (unlink n)) (fun _ => raise e))).

(** Lines 98-99. *)
Definition posix_register_phase {W : Type} `{OS W} (size : Z) : M W Z :=
  bind (getattr _name) (fun n =>
  bind (call (register n "shared_memory")) (fun _ => ret size)).


(** The call that asks the system for the size of the object being
    attached to: [os.fstat] on the descriptor, or [VirtualQuerySize] on the
    probe view. *)
Definition size_query (os : os_module) (a : Z) : syscall :=
  if _USE_POSIX os then fstat a else VirtualQuerySize a.

(** ** Sample runs on the reference kernels *)

(** Creating 100 bytes under the name [t] on Windows, and the kernel that
    run leaves behind. *)
Definition windows_create_t : outcome unit * state Windows.kernel :=
  open_windows (Some "t") true 100 Windows.empty.

Definition windows_with_t : Windows.kernel := world (snd windows_create_t).

(** Attaching to [t] afterwards, with the size argument left at 0. *)
Definition windows_attach_t : outcome unit * state Windows.kernel :=
  open_windows (Some "t") false 0 windows_with_t.

(** Creating 100 bytes under the name [t] on Linux, and attaching to it. *)
Definition posix_create_t : outcome unit * state Posix.kernel :=
  open_posix (Some "t") true 100 Posix.empty.

Definition posix_with_t : Posix.kernel := world (snd posix_create_t).

Definition posix_attach_t : outcome unit * state Posix.kernel :=
  open_posix (Some "t") false 0 posix_with_t.


(** Creating [2^50] bytes under the name [x] on Linux: the mapping fails
    for want of address space.  Creating [2^63] bytes: the length does not
    fit the C type [ftruncate] takes. *)
Definition posix_create_huge : outcome unit * state Posix.kernel :=
  open_posix (Some "x") true (2 ^ 50) Posix.empty.


(** Creating [t] on Windows when [t] exists. *)
Definition windows_create_t_again : outcome unit * state Windows.kernel :=
  open_windows (Some "t") true 10 windows_with_t.

(** ** What a Windows open holds while it runs *)

(** Besides the long-lived mapping, the Windows branch obtains handles
    (from [CreateFileMapping] and [OpenFileMapping]) and a probe view (from
    [MapViewOfFile]); it gives them back with [CloseHandle] and
    [UnmapViewOfFile]. *)
Inductive resource : Type :=
| Handle (h : Z)
| View (p : Z).

Definition resource_eqb (a b : resource) : bool :=
  match a, b with
  | Handle h, Handle h' => h =? h'
  | View p, View p' => p =? p'
  | _, _ => false
  end.

(** Giving back one resource: its first occurrence leaves the list. *)
Fixpoint release_one (r : resource) (held : list resource) : list resource :=
  match held with
  | [] => []
  | r' :: held' =>
      if resource_eqb r r' then held' else r' :: release_one r held'
  end.

(** The effect of one logged call on the resources held. *)
Definition account (held : list resource) (ev : event) : list resource :=
  match ev with
  | (CreateFileMapping _ _ _ _ _ _, Returns h) => Handle h :: held
  | (OpenFileMapping _ _ _, Returns h) => Handle h :: held
  | (MapViewOfFile _ _ _ _ _, Returns p) => View p :: held
  | (CloseHandle h, _) => release_one (Handle h) held
  | (UnmapViewOfFile p, _) => release_one (View p) held
  | _ => held
  end.

(** The resources held after the calls [evs], having held [held] before. *)
Definition outstanding (held : list resource) (evs : list event)
  : list resource :=
  fold_left account evs held.

(** A run leaves the two attributes assigned last, [_size] and [_buf], as
    they were. *)
Definition unfinished {W : Type} (s s' : state W) : Prop :=
  _buf (self s') = _buf (self s) /\ _size (self s') = _size (self s).

(** Recognisers for three of the calls. *)
Definition is_shm_open (c : syscall) : bool :=
  match c with shm_open _ _ _ => true | _ => false end.

Definition is_ftruncate (c : syscall) : bool :=
  match c with ftruncate _ _ => true | _ => false end.

Definition is_unlink (c : syscall) : bool :=
  match c with unlink _ => true | _ => false end.

(** No call of [evs] is recognised by [p]. *)
Definition never (p : syscall -> bool) (evs : list event) : Prop :=
  Forall (fun ev => p (fst ev) = false) evs.

(** A Linux kernel in which another process has created the object [/big],
    too large to be mapped, and the attach to it. *)
Definition posix_with_big : Posix.kernel :=
  {| Posix.names := [("/big", 3)]; Posix.sizes := [(3, 2 ^ 50)];
     Posix.fds := []; Posix.mappings := []; Posix.next := 4;
     Posix.tracked := [] |}.

Definition posix_attach_big : outcome unit * state Posix.kernel :=
  open_posix (Some "big") false 0 posix_with_big.

(** A scripted system: it answers the calls it receives with the results
    it was given, in order, whatever the calls are. *)
Definition replay (c : syscall) (answers : list (result Z))
  : result Z * list (result Z) :=
  match answers with
  | r :: rest => (r, rest)
  | [] => (Raises (OSError 38 "Function not implemented"), [])
  end.

#[export] Instance scripted_OS : OS (list (result Z)) := {| os_call := replay |}.

(** A handle [h] that a successful open has made out of the handle [h0]:
    its buffer is the view of its mapping, its size is the length the
    mapping was opened with, and the attributes the open only reads are as
    they were ([_flags] too, unless the open was a creation). *)
Definition opened_from (create : bool) (h0 h : SharedMemory) : Prop :=
  exists m,
    _mmap h = Some m
    /\ _buf h = Some (memoryview m)
    /\ _size h = Some (mm_length m)
    /\ _mode h = _mode h0
    /\ _prepend_leading_slash h = _prepend_leading_slash h0
    /\ (create = false -> _flags h = _flags h0).

(** A name [_make_filename] can return on the platform [os]. *)
Definition generated_name (os : os_module) (nm : string) : Prop :=
  exists hex,
    nm = _SHM_NAME_PREFIX os ++ hex
    /\ String.length hex = 8%nat
    /\ string_forallb is_hex_char hex = true.

(** The candidate name [_make_filename] returns in the state [s], and the
    one it returns on the next call. *)
Definition candidate {W : Type} (os : os_module) (s : state W) : string :=
  _SHM_NAME_PREFIX os ++ hexlify (map (entropy s) (seq (cursor s) 4)).

Definition next_candidate {W : Type} (os : os_module) (s : state W) : string :=
  _SHM_NAME_PREFIX os ++ hexlify (map (entropy s) (seq (cursor s + 4) 4)).

(** The kernels left by a creation without a name, whose first candidate
    is therefore taken, and the states in which a second creation without
    a name enters its loop. *)
Definition posix_with_candidate : Posix.kernel :=
  world (snd (open_posix None true 100 Posix.empty)).

Definition posix_retrying : state Posix.kernel :=
  checked linux true (boot linux posix_with_candidate).

Definition windows_with_candidate : Windows.kernel :=
  world (snd (open_windows None true 100 Windows.empty)).

Definition windows_retrying : state Windows.kernel :=
  checked nt true (boot nt windows_with_candidate).

(** * Properties *)

(** ** Generated names *)

Lemma hex_digit_high (b : byte) :
  is_hex_char (hex_digit (N.div (Byte.to_N b) 16)) = true.
Proof. destruct b; reflexivity. Qed.

Lemma hex_digit_low (b : byte) :
  is_hex_char (hex_digit (N.modulo (Byte.to_N b) 16)) = true.
Proof. destruct b; reflexivity. Qed.

Lemma hexlify_length (bs : list byte) :
  String.length (hexlify bs) = (2 * List.length bs)%nat.
Proof.
  induction bs as [|b bs IH]; simpl; [reflexivity|].
  rewrite IH. lia.
Qed.

Lemma hexlify_hex (bs : list byte) :
  string_forallb is_hex_char (hexlify bs) = true.
Proof.
  induction bs as [|b bs IH]; simpl; [reflexivity|].
  rewrite hex_digit_high, hex_digit_low, IH. reflexivity.
Qed.

Lemma append_length (a b : string) :
  String.length (a ++ b) = (String.length a + String.length b)%nat.
Proof. induction a as [|c a IH]; simpl; [reflexivity | now rewrite IH]. Qed.

Section Names.

Context {W : Type} `{OS W}.
Variable os : os_module.

Lemma prefix_length : String.length (_SHM_NAME_PREFIX os) = 5%nat.
Proof. unfold _SHM_NAME_PREFIX. destruct (_USE_POSIX os); reflexivity. Qed.

Lemma make_filename_run (s : state W) :
  _make_filename os s
  = (Ok (_SHM_NAME_PREFIX os
         ++ hexlify (map (entropy s) (seq (cursor s) 4))),
     after_token s).
Proof.
  unfold _make_filename, len, _SHM_SAFE_NAME_LENGTH.
  rewrite prefix_length. simpl.
  unfold bind, token_hex. simpl.
  rewrite append_length, prefix_length. simpl.
  reflexivity.
Qed.

(** C8: every generated name is the platform prefix followed by eight
    hexadecimal characters, thirteen characters in all, which is within the
    safe length of fourteen; the generator always returns. *)
Theorem make_filename_safe_name (s : state W) :
  exists hex s',
    _make_filename os s = (Ok (_SHM_NAME_PREFIX os ++ hex), s')
    /\ _SHM_NAME_PREFIX os = (if _USE_POSIX os then "/psm_" else "wnsm_")
    /\ string_forallb is_hex_char hex = true
    /\ String.length hex = 8%nat
    /\ len (_SHM_NAME_PREFIX os ++ hex) <= _SHM_SAFE_NAME_LENGTH.
Proof.
  exists (hexlify (map (entropy s) (seq (cursor s) 4))), (after_token s).
  split; [apply make_filename_run|].
  split; [reflexivity|].
  split; [apply hexlify_hex|].
  split; [rewrite hexlify_length; reflexivity|].
  unfold len, _SHM_SAFE_NAME_LENGTH.
  rewrite append_length, prefix_length, hexlify_length. simpl. lia.
Qed.

End Names.

(** ** Argument checks *)

Section Checks.

Context {W : Type} `{OS W}.
Variable os : os_module.

Lemma negative_size_run
  (fuel : nat) (name : option string) (create : bool) (size : Z) (s : state W) :
  size < 0 ->
  _SharedMemory_init os fuel name create size s
  = (Raise (ValueError "'size' must be a positive integer"), s).
Proof.
  intros Hneg. unfold _SharedMemory_init, bind.
  assert ((size >=? 0) = false) as ->
    by (rewrite Z.geb_leb; apply Z.leb_gt; lia).
  reflexivity.
Qed.

Lemma zero_size_creation_run
  (fuel : nat) (name : option string) (s : state W) :
  _SharedMemory_init os fuel name true 0 s
  = (Raise (ValueError "'size' must be a positive number different from zero"),
     assigned (set_flags (Z.lor (_O_CREX os) (O_RDWR os))) s).
Proof. reflexivity. Qed.

(** C4: a creation request with a size of zero or less, and any request
    with a negative size, is refused with one of the two size errors, and
    nothing has been asked of the operating system by then: the call log,
    the system and the entropy are as they were. *)
Theorem init_refuses_invalid_size
  (fuel : nat) (name : option string) (create : bool) (size : Z) (s : state W) :
  (create = true /\ size <= 0) \/ size < 0 ->
  exists e s',
    _SharedMemory_init os fuel name create size s = (Raise e, s')
    /\ InvalidSize e
    /\ trace s' = trace s /\ world s' = world s /\ cursor s' = cursor s.
Proof.
  intros Hbad.
  destruct (Z.ltb_spec size 0) as [Hneg | Hnonneg].
  - exists (ValueError "'size' must be a positive integer"), s.
    split; [apply negative_size_run; assumption|].
    split; [left; reflexivity|]. repeat split.
  - destruct Hbad as [[-> Hle] | Hlt]; [|lia].
    assert (size = 0) as -> by lia.
    exists (ValueError "'size' must be a positive number different from zero"),
           (assigned (set_flags (Z.lor (_O_CREX os) (O_RDWR os))) s).
    split; [apply zero_size_creation_run|].
    split; [right; reflexivity|]. repeat split.
Qed.

(** C5, as the code has it: with the name omitted, [create] false and a
    size that is not negative, a handle whose flags do not carry [O_EXCL]
    (every new handle) is refused with the missing-name error, and the
    state, the call log included, is untouched. *)
Theorem init_refuses_missing_name
  (fuel : nat) (size : Z) (s : state W) :
  0 <= size ->
  Z.land (_flags (self s)) (O_EXCL os) = 0 ->
  _SharedMemory_init os fuel None false size s = (Raise MissingName, s).
Proof.
  intros Hsize Hflags.
  unfold _SharedMemory_init, bind.
  assert ((size >=? 0) = true) as ->
    by (rewrite Z.geb_leb; apply Z.leb_le; lia).
  simpl. unfold getattr. rewrite Hflags. reflexivity.
Qed.

End Checks.

(** C4 at a concrete call: creating 0 bytes under the name [x] on Linux. *)
Lemma init_refuses_invalid_size_witness :
  exists e s',
    _SharedMemory_init linux 8 (Some "x") true 0 (boot linux Posix.empty)
    = (Raise e, s')
    /\ InvalidSize e
    /\ trace s' = [] /\ world s' = Posix.empty /\ cursor s' = 0%nat.
Proof.
  apply (init_refuses_invalid_size linux 8 (Some "x") true 0
           (boot linux Posix.empty)).
  left. split; [reflexivity | lia].
Defined.

(** C5 as stated fails: with a negative size the call is refused for its
    size, not for the missing name. *)
Lemma missing_name_negative_size_counterexample :
  fst (open_posix None false (-1) Posix.empty)
  = Raise (ValueError "'size' must be a positive integer")
  /\ fst (open_posix None false (-1) Posix.empty) <> Raise MissingName.
Proof. split; [reflexivity | discriminate]. Qed.

(** The amended C5 at a concrete call: attaching without a name on Linux. *)
Lemma init_refuses_missing_name_witness :
  _SharedMemory_init linux 8 None false 0 (boot linux Posix.empty)
  = (Raise MissingName, boot linux Posix.empty).
Proof.
  apply (init_refuses_missing_name linux 8 0 (boot linux Posix.empty)).
  - lia.
  - reflexivity.
Defined.

(** ** Past the argument checks *)

Section Valid.

Context {W : Type} `{OS W}.
Variable os : os_module.

Lemma init_valid (fuel : nat) (name : option string) (create : bool)
                 (size : Z) (s : state W) :
  valid_arguments os name create size s ->
  _SharedMemory_init os fuel name create size s
  = bind (platform_branch os fuel name create size) finish (checked os create s).
Proof.
  intros (Hsize & Hcreate & Hname).
  unfold _SharedMemory_init, platform_branch, finish.
  unfold bind at 1 2 3.
  assert ((size >=? 0) = true) as ->
    by (rewrite Z.geb_leb; apply Z.leb_le; lia).
  simpl.
  destruct create; simpl.
  - destruct (Z.eqb_spec size 0) as [E | _]; [now elim Hcreate|].
    simpl. unfold bind at 1. simpl.
    destruct name as [n|]; simpl.
    + reflexivity.
    + specialize (Hname eq_refl). simpl in Hname.
      destruct (Z.eqb_spec (Z.land (Z.lor (_O_CREX os) (O_RDWR os)) (O_EXCL os)) 0)
        as [E | _]; [now elim Hname|].
      reflexivity.
  - unfold bind at 1. simpl.
    destruct name as [n|]; simpl.
    + reflexivity.
    + specialize (Hname eq_refl). simpl in Hname.
      destruct (Z.eqb_spec (Z.land (_flags (self s)) (O_EXCL os)) 0)
        as [E | _]; [now elim Hname|].
      reflexivity.
Qed.

End Valid.

(** ** The Windows creation path *)

Ltac run_monad H :=
  cbv beta iota zeta delta
    [bind try_finally try_except ret raise out_of_fuel setattr getattr call]
    in H.

Ltac split_call H :=
  match type of H with
  | context [os_call ?c ?w] =>
      let v := fresh "v" in
      let e := fresh "e" in
      let w' := fresh "w" in
      let E := fresh "E" in
      destruct (os_call c w) as [[v | e] w'] eqn:E;
      cbv beta iota zeta in H;
      cbn [world self trace entropy cursor] in H
  end.

Lemma run_result_inv {A S : Type} (o o' : outcome A) (s s' : S) :
  (o, s) = (o', s') -> o = o' /\ s = s'.
Proof. intros E. split; [exact (f_equal fst E) | exact (f_equal snd E)]. Qed.

Ltac finished H :=
  let Ho := fresh "Ho" in
  let Hs := fresh "Hs" in
  apply run_result_inv in H; destruct H as [Ho Hs];
  try (injection Ho as <-); try clear Ho; subst;
  cbn [world self trace entropy cursor].


Section WindowsCreate.

Context {W : Type} `{OS W}.
Variable os : os_module.

Lemma candidate_name (name : option string) (s : state W) :
  exists tname s0,
    (match name with None => _make_filename os | Some n => ret n end) s
    = (Ok tname, s0)
    /\ self s0 = self s /\ trace s0 = trace s
    /\ (forall n, name = Some n -> tname = n /\ s0 = s).
Proof.
  destruct name as [n|].
  - exists n, s. split; [reflexivity|]. split; [reflexivity|].
    split; [reflexivity|]. intros n' [= ->]. split; reflexivity.
  - eexists _, _. rewrite make_filename_run.
    split; [reflexivity|]. split; [reflexivity|].
    split; [reflexivity|]. intros n' [=].
Qed.

Lemma windows_create_loop_ok (fuel : nat) (name : option string) (size : Z) :
  forall s s',
    windows_create_loop os fuel name size s = (Ok tt, s') ->
    exists pre tname h code m r,
      trace s'
      = (pre ++ [(reserve_call size tname, Returns h);
                (GetLastError, Returns code);
                (map_call size tname, Returns m);
                (CloseHandle h, Returns r)])%list
      /\ self s'
         = set_name (Some tname)
             (set_mmap (Some (creator_mapping m size tname)) (self s))
      /\ code <> ERROR_ALREADY_EXISTS
      /\ (forall n, name = Some n -> tname = n /\ pre = trace s).
Proof.
  induction fuel as [|fuel IH]; intros s s' Hrun.
  - discriminate.
  - cbn [windows_create_loop] in Hrun. unfold bind at 1 in Hrun.
    destruct (candidate_name name s) as (tname & s0 & E0 & Hself & Htrace & Hn).
    rewrite E0 in Hrun. clear E0.
    run_monad Hrun.
    split_call Hrun; [|discriminate].
    split_call Hrun.
    + destruct (Z.eqb_spec v0 ERROR_ALREADY_EXISTS) as [Eq | Hcode].
      * destruct name as [n|]; split_call Hrun; try discriminate.
        apply IH in Hrun. cbn [world self trace entropy cursor] in Hrun.
        destruct Hrun as (pre & tn & h & code & m & r & Ht & Hs & Hc & _).
        exists pre, tn, h, code, m, r. rewrite Ht, Hs, Hself.
        repeat split; try assumption; discriminate.
      * split_call Hrun; split_call Hrun; try discriminate.
        finished Hrun.
        exists (trace s0), tname, v, v0, v1, v2.
        rewrite Hself, <- !app_assoc. cbn [app].
        split; [reflexivity|]. split; [reflexivity|]. split; [assumption|].
        intros n Hname. split; [apply (Hn n Hname) | assumption].
    + split_call Hrun; discriminate.
Qed.


End WindowsCreate.

(** ** The last two assignments *)

Section Finish.

Context {W : Type} `{OS W}.
Variable os : os_module.

Lemma finish_run (size : Z) (s : state W) (m : mmap_obj) :
  _mmap (self s) = Some m ->
  finish size s
  = (Ok tt, assigned (set_buf (Some (memoryview m)))
              (assigned (set_size (Some size)) s)).
Proof.
  intros Hm. unfold finish, bind, setattr, getattr. cbn [self].
  unfold set_size at 1. cbn [_mmap]. rewrite Hm. reflexivity.
Qed.

(** The checks either refuse the call before anything is logged, or hand
    over to the platform branch. *)
Lemma init_cases (fuel : nat) (name : option string) (create : bool)
                 (size : Z) (s : state W) :
  (exists e s', _SharedMemory_init os fuel name create size s = (Raise e, s')
                /\ trace s' = trace s)
  \/ valid_arguments os name create size s.
Proof.
  destruct (Z.ltb_spec size 0) as [Hneg | Hnonneg].
  { left. eexists _, s. split; [|reflexivity].
    apply negative_size_run. assumption. }
  destruct create.
  - destruct (Z.eq_dec size 0) as [-> | Hnz].
    { left. eexists _, _. split; [apply zero_size_creation_run|].
      reflexivity. }
    destruct name as [n|].
    + right. split; [assumption|]. split; [intros _; assumption|]. discriminate.
    + destruct (Z.eq_dec
                  (Z.land (_flags (self (checked os true s))) (O_EXCL os)) 0)
        as [E | Hx].
      * left. eexists _, _. unfold _SharedMemory_init, bind.
        assert ((size >=? 0) = true) as ->
          by (rewrite Z.geb_leb; apply Z.leb_le; lia).
        apply Z.eqb_neq in Hnz. cbn [negb]. unfold ret at 1.
        unfold setattr at 1. unfold getattr at 1. rewrite Hnz.
        unfold ret at 1.
        unfold checked, assigned in E. cbn [self] in E. cbn [self].
        rewrite E. cbn. split; reflexivity.
      * right. split; [assumption|]. split; [intros _; assumption|].
        intros _. assumption.
  - destruct name as [n|].
    + right. split; [assumption|]. split; [discriminate|]. discriminate.
    + destruct (Z.eq_dec (Z.land (_flags (self s)) (O_EXCL os)) 0) as [E | Hx].
      * left. exists MissingName, s. split; [|reflexivity].
        unfold _SharedMemory_init, bind.
        assert ((size >=? 0) = true) as ->
          by (rewrite Z.geb_leb; apply Z.leb_le; lia).
        simpl. unfold getattr. rewrite E. reflexivity.
      * right. split; [assumption|]. split; [discriminate|].
        intros _. assumption.
Qed.

End Finish.

(** ** Successful creation on Windows *)

Section WindowsCreated.

Context {W : Type} `{OS W}.
Variable os : os_module.

Lemma init_ok_valid (fuel : nat) (name : option string) (create : bool)
                    (size : Z) (s s' : state W) :
  _SharedMemory_init os fuel name create size s = (Ok tt, s') ->
  valid_arguments os name create size s.
Proof.
  intros Hrun.
  destruct (init_cases os fuel name create size s) as [(e & s1 & E & _) | Hv].
  - rewrite E in Hrun. discriminate.
  - exact Hv.
Qed.

Lemma windows_created (fuel : nat) (name : option string) (size : Z)
                      (s s' : state W) :
  _USE_POSIX os = false ->
  _SharedMemory_init os fuel name true size s = (Ok tt, s') ->
  exists pre tname h code m r,
    trace s'
    = (pre ++ [(reserve_call size tname, Returns h);
              (GetLastError, Returns code);
              (map_call size tname, Returns m);
              (CloseHandle h, Returns r)])%list
    /\ code <> ERROR_ALREADY_EXISTS
    /\ _name (self s') = Some tname
    /\ _mmap (self s') = Some (creator_mapping m size tname)
    /\ _buf (self s') = Some (memoryview (creator_mapping m size tname))
    /\ _size (self s') = Some size
    /\ (forall n, name = Some n -> tname = n /\ pre = trace s).
Proof.
  intros Hnt Hrun.
  pose proof (init_ok_valid _ _ _ _ _ _ Hrun) as Hv.
  rewrite (init_valid os fuel name true size s Hv) in Hrun.
  unfold platform_branch in Hrun. rewrite Hnt in Hrun.
  unfold bind at 1 2 in Hrun.
  destruct (windows_create_loop os fuel name size (checked os true s))
    as [[[] | e | ] s1] eqn:Eloop; try discriminate.
  apply windows_create_loop_ok in Eloop.
  destruct Eloop as (pre & tname & h & code & m & r & Ht & Hs & Hc & Hn).
  unfold ret in Hrun.
  rewrite (finish_run size s1 (creator_mapping m size tname)) in Hrun
    by (rewrite Hs; reflexivity).
  apply run_result_inv in Hrun. destruct Hrun as [_ <-].
  exists pre, tname, h, code, m, r. cbn [assigned self trace].
  rewrite Hs. repeat split; try assumption; try reflexivity.
  all: match goal with Hname : _ = Some ?n |- _ => apply (Hn n Hname) end.
Qed.

(** C2, as the code has it: on a successful creation on Windows the last
    four calls are the reservation, the error query, the mapping of the
    process's own persistent view, which is opened read-only, and, right
    after it, the closing of the reservation handle; the mapping kept in
    the handle is the object [mmap] returned, not the reservation. *)
Theorem reservation_closed_after_view
  (fuel : nat) (name : option string) (size : Z) (s s' : state W) :
  _USE_POSIX os = false ->
  _SharedMemory_init os fuel name true size s = (Ok tt, s') ->
  exists pre tname h code m r,
    trace s'
    = (pre ++ [(reserve_call size tname, Returns h);
              (GetLastError, Returns code);
              (mmap_mmap (-1) size (Some tname) ACCESS_READ, Returns m);
              (CloseHandle h, Returns r)])%list
    /\ _name (self s') = Some tname
    /\ _mmap (self s')
       = Some {| mm_id := m; mm_fileno := -1; mm_length := size;
                 mm_tagname := Some tname; mm_access := ACCESS_READ |}.
Proof.
  intros Hnt Hrun.
  destruct (windows_created fuel name size s s' Hnt Hrun)
    as (pre & tname & h & code & m & r & Ht & _ & Hname & Hmap & _).
  exists pre, tname, h, code, m, r. repeat split; assumption.
Qed.

(** C9: on a successful creation on Windows the creator's persistent
    mapping was opened with [ACCESS_READ], and the buffer the handle
    exposes is the read-only view of that mapping. *)
Theorem creator_buffer_read_only
  (fuel : nat) (name : option string) (size : Z) (s s' : state W) :
  _USE_POSIX os = false ->
  _SharedMemory_init os fuel name true size s = (Ok tt, s') ->
  exists tname m mapping buffer,
    In (mmap_mmap (-1) size (Some tname) ACCESS_READ, Returns m) (trace s')
    /\ _mmap (self s') = Some mapping
    /\ mm_id mapping = m
    /\ mm_access mapping = ACCESS_READ
    /\ _buf (self s') = Some buffer
    /\ mv_obj buffer = mapping
    /\ mv_readonly buffer = true.
Proof.
  intros Hnt Hrun.
  destruct (windows_created fuel name size s s' Hnt Hrun)
    as (pre & tname & h & code & m & r & Ht & _ & _ & Hmap & Hbuf & _).
  exists tname, m, (creator_mapping m size tname),
         (memoryview (creator_mapping m size tname)).
  repeat split; try assumption.
  rewrite Ht. apply in_or_app. right. cbn. auto.
Qed.

End WindowsCreated.

(** C2 as stated fails: the view established before the reservation handle
    is closed is opened with [ACCESS_READ], so it is not writable. *)
Lemma creator_view_not_writable_counterexample :
  fst windows_create_t = Ok tt
  /\ trace (snd windows_create_t)
     = [(CreateFileMapping (-1) 0 4 0 100 "t", Returns 100);
        (GetLastError, Returns 0);
        (mmap_mmap (-1) 100 (Some "t") ACCESS_READ, Returns 101);
        (CloseHandle 100, Returns 0)]
  /\ option_map mv_readonly (_buf (self (snd windows_create_t))) = Some true.
Proof. repeat split. Qed.

(** The amended C2 on the reference kernel: the reservation handle is 100,
    the mapping kept is 101. *)
Lemma reservation_closed_after_view_witness :
  exists pre tname h code m r,
    trace (snd windows_create_t)
    = (pre ++ [(reserve_call 100 tname, Returns h);
              (GetLastError, Returns code);
              (mmap_mmap (-1) 100 (Some tname) ACCESS_READ, Returns m);
              (CloseHandle h, Returns r)])%list
    /\ _name (self (snd windows_create_t)) = Some tname
    /\ _mmap (self (snd windows_create_t))
       = Some {| mm_id := m; mm_fileno := -1; mm_length := 100;
                 mm_tagname := Some tname; mm_access := ACCESS_READ |}.
Proof.
  apply (reservation_closed_after_view nt 8 (Some "t") 100
           (boot nt Windows.empty) (snd windows_create_t)).
  - reflexivity.
  - vm_compute. reflexivity.
Defined.

(** C9 on the reference kernel. *)
Lemma creator_buffer_read_only_witness :
  exists tname m mapping buffer,
    In (mmap_mmap (-1) 100 (Some tname) ACCESS_READ, Returns m)
       (trace (snd windows_create_t))
    /\ _mmap (self (snd windows_create_t)) = Some mapping
    /\ mm_id mapping = m
    /\ mm_access mapping = ACCESS_READ
    /\ _buf (self (snd windows_create_t)) = Some buffer
    /\ mv_obj buffer = mapping
    /\ mv_readonly buffer = true.
Proof.
  apply (creator_buffer_read_only nt 8 (Some "t") 100
           (boot nt Windows.empty) (snd windows_create_t)).
  - reflexivity.
  - vm_compute. reflexivity.
Defined.

(** ** The Windows attach path *)

Section WindowsAttach.

Context {W : Type} `{OS W}.
Variable os : os_module.

Lemma windows_attach_ok (name : option string) (q : Z) (s s' : state W) :
  windows_attach name s = (Ok q, s') ->
  exists h p r0 m r,
    trace s'
    = (trace s ++ [(open_call name, Returns h);
                  (probe_call h, Returns p);
                  (CloseHandle h, Returns r0);
                  (VirtualQuerySize p, Returns q);
                  (attach_call q name, Returns m);
                  (UnmapViewOfFile p, Returns r)])%list
    /\ self s' = set_mmap (Some (attacher_mapping m q name))
                   (set_name name (self s)).
Proof.
  intros Hrun. unfold windows_attach in Hrun. run_monad Hrun.
  cbn [world self trace entropy cursor] in Hrun.
  split_call Hrun; [|discriminate].
  split_call Hrun; split_call Hrun; try discriminate.
  split_call Hrun.
  - split_call Hrun; split_call Hrun; try discriminate.
    finished Hrun. exists v, v0, v1, v3, v4.
    rewrite <- !app_assoc. cbn [app]. split; reflexivity.
  - split_call Hrun; discriminate.
Qed.

End WindowsAttach.

(** ** The POSIX branch *)

Section PosixBranch.

Context {W : Type} `{OS W}.
Variable os : os_module.

Lemma posix_branch_phases (fuel : nat) (name : option string)
                          (create : bool) (size : Z) :
  posix_branch os fuel name create size
  = bind (posix_name_phase os fuel name)
      (fun _ => bind (posix_map_phase create size) posix_register_phase).
Proof. destruct name; reflexivity. Qed.

Lemma posix_name_loop_ok (fuel : nat) :
  forall (s s' : state W) (nm : string),
    posix_name_loop os fuel s = (Ok nm, s') ->
    exists pre fd,
      trace s'
      = (pre ++ [(shm_open nm (_flags (self s)) (_mode (self s)), Returns fd)])%list
      /\ self s' = set_name (Some nm) (set_fd fd (self s)).
Proof.
  induction fuel as [|fuel IH]; intros s s' nm Hrun.
  - discriminate.
  - cbn [posix_name_loop] in Hrun. unfold bind at 1 in Hrun.
    rewrite make_filename_run in Hrun.
    run_monad Hrun. cbn [world self trace entropy cursor after_token] in Hrun.
    split_call Hrun.
    + finished Hrun. exists (trace s), v. split; reflexivity.
    + destruct (is_FileExistsError e); [|discriminate].
      apply IH in Hrun. cbn [world self trace entropy cursor] in Hrun.
      exact Hrun.
Qed.


Lemma posix_name_phase_ok (fuel : nat) (name : option string)
                          (s s' : state W) :
  posix_name_phase os fuel name s = (Ok tt, s') ->
  exists pre nm fd,
    trace s'
    = (pre ++ [(shm_open nm (_flags (self s)) (_mode (self s)), Returns fd)])%list
    /\ self s' = set_name (Some nm) (set_fd fd (self s))
    /\ (forall n, name = Some n ->
        pre = trace s
        /\ nm = if _prepend_leading_slash (self s) then "/" ++ n else n).
Proof.
  intros Hrun. destruct name as [n|]; unfold posix_name_phase in Hrun.
  - run_monad Hrun. cbn [world self trace entropy cursor] in Hrun.
    split_call Hrun; [|discriminate].
    finished Hrun. eexists _, _, _. split; [reflexivity|].
    split; [reflexivity|]. intros n' [= ->]. split; reflexivity.
  - unfold bind at 1 in Hrun.
    destruct (posix_name_loop os fuel s) as [[nm | e | ] s1] eqn:Eloop;
      try discriminate.
    unfold ret in Hrun. finished Hrun.
    destruct (posix_name_loop_ok fuel s s' nm Eloop) as (pre & fd & Ht & Hs).
    exists pre, nm, fd. split; [assumption|]. split; [assumption|].
    intros n [=].
Qed.


Lemma posix_map_phase_ok (create : bool) (size q : Z) (s s' : state W) :
  posix_map_phase create size s = (Ok q, s') ->
  exists pre m,
    trace s'
    = (pre ++ [(fstat (_fd (self s)), Returns q);
              (mmap_mmap (_fd (self s)) q None ACCESS_DEFAULT, Returns m)])%list
    /\ self s'
       = set_mmap (Some {| mm_id := m; mm_fileno := _fd (self s);
                           mm_length := q; mm_tagname := None;
                           mm_access := ACCESS_DEFAULT |}) (self s).
Proof.
  intros Hrun. unfold posix_map_phase in Hrun.
  destruct (create && negb (size =? 0)).
  - run_monad Hrun. cbn [world self trace entropy cursor] in Hrun.
    split_call Hrun.
    + split_call Hrun.
      * split_call Hrun.
        -- finished Hrun.
           exists (trace s ++ [(ftruncate (_fd (self s)) size, Returns v)])%list, v1.
           rewrite <- !app_assoc. cbn [app]. split; reflexivity.
        -- destruct (is_OSError e); [split_call Hrun|]; discriminate.
      * destruct (is_OSError e); [split_call Hrun|]; discriminate.
    + destruct (is_OSError e); [split_call Hrun|]; discriminate.
  - run_monad Hrun. cbn [world self trace entropy cursor] in Hrun.
    split_call Hrun.
    + split_call Hrun.
      * finished Hrun. rewrite <- !app_assoc. cbn [app]. eexists _, _.
        split; reflexivity.
      * destruct (is_OSError e); [split_call Hrun|]; discriminate.
    + destruct (is_OSError e); [split_call Hrun|]; discriminate.
Qed.

End PosixBranch.


Section PosixFailure.

Context {W : Type} `{OS W}.
Variable os : os_module.







End PosixFailure.

(** ** Successful opens *)

Section Opened.

Context {W : Type} `{OS W}.
Variable os : os_module.

Lemma posix_opened (fuel : nat) (name : option string) (create : bool)
                   (size : Z) (s s' : state W) :
  _USE_POSIX os = true ->
  _SharedMemory_init os fuel name create size s = (Ok tt, s') ->
  exists pre nm fd q m r,
    trace s'
    = (pre ++ [(fstat fd, Returns q);
              (mmap_mmap fd q None ACCESS_DEFAULT, Returns m);
              (register (Some nm) "shared_memory", Returns r)])%list
    /\ _name (self s') = Some nm
    /\ _fd (self s') = fd
    /\ _size (self s') = Some q.
Proof.
  intros Hposix Hrun.
  pose proof (init_ok_valid _ _ _ _ _ _ _ Hrun) as Hv.
  rewrite (init_valid os fuel name create size s Hv) in Hrun.
  unfold platform_branch in Hrun. rewrite Hposix, posix_branch_phases in Hrun.
  unfold bind at 1 2 in Hrun.
  destruct (posix_name_phase os fuel name (checked os create s))
    as [[[] | e | ] s1] eqn:Ename; try discriminate.
  destruct (posix_name_phase_ok os fuel name _ _ Ename)
    as (pre1 & nm & fd & Ht1 & Hs1 & _).
  unfold bind at 1 in Hrun.
  destruct (posix_map_phase create size s1) as [[q | e | ] s2] eqn:Emap;
    try discriminate.
  destruct (posix_map_phase_ok create size q s1 s2 Emap)
    as (pre2 & m & Ht2 & Hs2).
  unfold posix_register_phase in Hrun. run_monad Hrun.
  cbn [world self trace entropy cursor] in Hrun.
  split_call Hrun; [|discriminate].
  fold (finish (W := W) q) in Hrun.
  rewrite (finish_run q _ {| mm_id := m; mm_fileno := _fd (self s1);
                             mm_length := q; mm_tagname := None;
                             mm_access := ACCESS_DEFAULT |}) in Hrun
    by (cbn [self]; rewrite Hs2; reflexivity).
  apply run_result_inv in Hrun. destruct Hrun as [_ <-].
  cbn [assigned self trace].
  exists pre2, nm, fd, q, m, v.
  rewrite Ht2, Hs2, Hs1, <- !app_assoc. cbn [app].
  repeat split.
Qed.

(** C10: on POSIX every successful open, attaching as well as creating,
    ends with the call [register(self._name, "shared_memory")], made after
    the mapping and with the name the handle carries. *)
Theorem posix_open_registers
  (fuel : nat) (name : option string) (create : bool) (size : Z)
  (s s' : state W) :
  _USE_POSIX os = true ->
  _SharedMemory_init os fuel name create size s = (Ok tt, s') ->
  exists pre nm r,
    trace s' = (pre ++ [(register (Some nm) "shared_memory", Returns r)])%list
    /\ _name (self s') = Some nm.
Proof.
  intros Hposix Hrun.
  destruct (posix_opened fuel name create size s s' Hposix Hrun)
    as (pre & nm & fd & q & m & r & Ht & Hname & _).
  exists (pre ++ [(fstat fd, Returns q);
                  (mmap_mmap fd q None ACCESS_DEFAULT, Returns m)])%list, nm, r.
  split; [|assumption].
  rewrite Ht, <- app_assoc. reflexivity.
Qed.

End Opened.

(** C10 on the reference kernel, for an attach. *)
Lemma posix_open_registers_witness :
  exists pre nm r,
    trace (snd posix_attach_t)
    = (pre ++ [(register (Some nm) "shared_memory", Returns r)])%list
    /\ _name (self (snd posix_attach_t)) = Some nm.
Proof.
  apply (posix_open_registers linux 8 (Some "t") false 0
           (boot linux posix_with_t) (snd posix_attach_t)).
  - reflexivity.
  - vm_compute. reflexivity.
Defined.

(** ** Attaching *)

Section Attached.

Context {W : Type} `{OS W}.
Variable os : os_module.

Lemma windows_attached (fuel : nat) (name : option string) (size : Z)
                       (s s' : state W) :
  _USE_POSIX os = false ->
  _SharedMemory_init os fuel name false size s = (Ok tt, s') ->
  exists h p r0 q m r,
    trace s'
    = (trace s ++ [(open_call name, Returns h);
                  (probe_call h, Returns p);
                  (CloseHandle h, Returns r0);
                  (VirtualQuerySize p, Returns q);
                  (attach_call q name, Returns m);
                  (UnmapViewOfFile p, Returns r)])%list
    /\ _name (self s') = name
    /\ _mmap (self s') = Some (attacher_mapping m q name)
    /\ _size (self s') = Some q.
Proof.
  intros Hnt Hrun.
  pose proof (init_ok_valid _ _ _ _ _ _ _ Hrun) as Hv.
  rewrite (init_valid os fuel name false size s Hv) in Hrun.
  unfold platform_branch in Hrun. rewrite Hnt in Hrun.
  unfold bind at 1 in Hrun. unfold checked in Hrun.
  destruct (windows_attach name s) as [[q | e | ] s1] eqn:Eatt;
    try discriminate.
  destruct (windows_attach_ok name q s s1 Eatt)
    as (h & p & r0 & m & r & Ht & Hs).
  rewrite (finish_run q s1 (attacher_mapping m q name)) in Hrun
    by (rewrite Hs; reflexivity).
  apply run_result_inv in Hrun. destruct Hrun as [_ <-].
  cbn [assigned self trace].
  exists h, p, r0, q, m, r. rewrite Ht, Hs. repeat split.
Qed.

Lemma attach_ignores_size (fuel : nat) (name : option string)
                          (size size' : Z) (s : state W) :
  0 <= size -> 0 <= size' ->
  _SharedMemory_init os fuel name false size s
  = _SharedMemory_init os fuel name false size' s.
Proof.
  intros Hs Hs'. unfold _SharedMemory_init.
  assert ((size >=? 0) = true) as ->
    by (rewrite Z.geb_leb; apply Z.leb_le; lia).
  assert ((size' >=? 0) = true) as ->
    by (rewrite Z.geb_leb; apply Z.leb_le; lia).
  unfold posix_branch. reflexivity.
Qed.

(** C3, as the code has it: a successful attach on Windows makes exactly
    six calls.  It opens the mapping for reading, maps a read-only probe
    view, closes the handle, asks [VirtualQuerySize] for the size of the
    probe view, opens the persistent mapping with that size, and only then
    unmaps the probe view; the probe view is passed to no other call. *)
Theorem probe_view_unmapped_after_mapping
  (fuel : nat) (name : option string) (size : Z) (s s' : state W) :
  _USE_POSIX os = false ->
  _SharedMemory_init os fuel name false size s = (Ok tt, s') ->
  exists h p r0 q m r,
    trace s'
    = (trace s ++ [(OpenFileMapping FILE_MAP_READ false name, Returns h);
                  (MapViewOfFile h FILE_MAP_READ 0 0 0, Returns p);
                  (CloseHandle h, Returns r0);
                  (VirtualQuerySize p, Returns q);
                  (mmap_mmap (-1) q name ACCESS_DEFAULT, Returns m);
                  (UnmapViewOfFile p, Returns r)])%list
    /\ option_map mm_id (_mmap (self s')) = Some m.
Proof.
  intros Hnt Hrun.
  destruct (windows_attached fuel name size s s' Hnt Hrun)
    as (h & p & r0 & q & m & r & Ht & _ & Hm & _).
  exists h, p, r0, q, m, r. split; [exact Ht|].
  rewrite Hm. reflexivity.
Qed.

(** C7, as the code has it: an attach behaves the same whatever size the
    caller passes, as long as it is not negative, and when it succeeds the
    size of the handle, and the length of its mapping, is the number the
    size query on the existing object returned ([fstat] on POSIX,
    [VirtualQuerySize] on Windows). *)
Theorem attached_size_is_queried
  (fuel : nat) (name : option string) (size size' : Z) (s : state W) :
  0 <= size -> 0 <= size' ->
  _SharedMemory_init os fuel name false size s
  = _SharedMemory_init os fuel name false size' s
  /\ forall s',
       _SharedMemory_init os fuel name false size s = (Ok tt, s') ->
       exists pre a q m last,
         trace s'
         = (pre ++ [(size_query os a, Returns q);
                   (mmap_mmap (if _USE_POSIX os then a else -1) q
                      (if _USE_POSIX os then None else name) ACCESS_DEFAULT,
                    Returns m);
                   last])%list
         /\ _size (self s') = Some q.
Proof.
  intros Hs Hs'. split; [apply attach_ignores_size; assumption|].
  intros s' Hrun. unfold size_query.
  destruct (_USE_POSIX os) eqn:Hp.
  - destruct (posix_opened os fuel name false size s s' Hp Hrun)
      as (pre & nm & fd & q & m & r & Ht & _ & _ & Hq).
    exists pre, fd, q, m, (register (Some nm) "shared_memory", Returns r).
    split; assumption.
  - destruct (windows_attached fuel name size s s' Hp Hrun)
      as (h & p & r0 & q & m & r & Ht & _ & _ & Hq).
    exists (trace s ++ [(open_call name, Returns h); (probe_call h, Returns p);
                        (CloseHandle h, Returns r0)])%list,
           p, q, m, (UnmapViewOfFile p, Returns r).
    split; [|assumption].
    rewrite Ht, <- app_assoc. reflexivity.
Qed.

End Attached.

(** C3 as stated fails: the probe view is unmapped after the persistent
    mapping has been opened, not before. *)
Lemma probe_unmapped_last_counterexample :
  fst windows_attach_t = Ok tt
  /\ trace (snd windows_attach_t)
     = [(OpenFileMapping 4 false (Some "t"), Returns 102);
        (MapViewOfFile 102 4 0 0 0, Returns 103);
        (CloseHandle 102, Returns 0);
        (VirtualQuerySize 103, Returns 4096);
        (mmap_mmap (-1) 4096 (Some "t") ACCESS_DEFAULT, Returns 104);
        (UnmapViewOfFile 103, Returns 1)].
Proof. split; reflexivity. Qed.

(** The amended C3 on the reference kernel. *)
Lemma probe_view_unmapped_after_mapping_witness :
  exists h p r0 q m r,
    trace (snd windows_attach_t)
    = ([] ++ [(OpenFileMapping FILE_MAP_READ false (Some "t"), Returns h);
              (MapViewOfFile h FILE_MAP_READ 0 0 0, Returns p);
              (CloseHandle h, Returns r0);
              (VirtualQuerySize p, Returns q);
              (mmap_mmap (-1) q (Some "t") ACCESS_DEFAULT, Returns m);
              (UnmapViewOfFile p, Returns r)])%list
    /\ option_map mm_id (_mmap (self (snd windows_attach_t))) = Some m.
Proof.
  apply (probe_view_unmapped_after_mapping nt 8 (Some "t") 0
           (boot nt windows_with_t) (snd windows_attach_t)).
  - reflexivity.
  - vm_compute. reflexivity.
Defined.

(** C7 as stated fails: a region created with 100 bytes on Windows is
    attached with the size the system reports for its pages, 4096. *)
Lemma attached_size_rounded_counterexample :
  fst windows_create_t = Ok tt
  /\ _size (self (snd windows_create_t)) = Some 100
  /\ fst windows_attach_t = Ok tt
  /\ _size (self (snd windows_attach_t)) = Some 4096.
Proof. repeat split. Qed.

(** The amended C7 on the reference kernels: attaching to [t] with the size
    arguments 0 and 7, on Linux and on Windows. *)
Lemma attached_size_is_queried_witness :
  (open_posix (Some "t") false 0 posix_with_t
   = open_posix (Some "t") false 7 posix_with_t
   /\ exists pre a q m last,
        trace (snd posix_attach_t)
        = (pre ++ [(size_query linux a, Returns q);
                  (mmap_mmap (if _USE_POSIX linux then a else -1) q
                     (if _USE_POSIX linux then None else Some "t")
                     ACCESS_DEFAULT, Returns m);
                  last])%list
        /\ _size (self (snd posix_attach_t)) = Some q)
  /\ (open_windows (Some "t") false 0 windows_with_t
      = open_windows (Some "t") false 7 windows_with_t
      /\ exists pre a q m last,
           trace (snd windows_attach_t)
           = (pre ++ [(size_query nt a, Returns q);
                     (mmap_mmap (if _USE_POSIX nt then a else -1) q
                        (if _USE_POSIX nt then None else Some "t")
                        ACCESS_DEFAULT, Returns m);
                     last])%list
           /\ _size (self (snd windows_attach_t)) = Some q).
Proof.
  split.
  - destruct (attached_size_is_queried linux 8 (Some "t") 0 7
                (boot linux posix_with_t)) as [Heq Hq]; [lia | lia |].
    split; [exact Heq|]. apply Hq. vm_compute. reflexivity.
  - destruct (attached_size_is_queried nt 8 (Some "t") 0 7
                (boot nt windows_with_t)) as [Heq Hq]; [lia | lia |].
    split; [exact Heq|]. apply Hq. vm_compute. reflexivity.
Defined.

(** ** Creating under a name that is taken *)

Section Collision.

Context {W : Type} `{OS W}.
Variable os : os_module.





End Collision.


(** ** Failed creations *)

Section FailedCreation.

Context {W : Type} `{OS W}.
Variable os : os_module.




End FailedCreation.



(** * Further properties *)

(** ** Handles and probe views on Windows *)

Lemma release_one_head (r : resource) (held : list resource) :
  release_one r (r :: held) = held.
Proof.
  cbn [release_one]. destruct r; cbn [resource_eqb]; rewrite Z.eqb_refl;
    reflexivity.
Qed.

Lemma outstanding_app (held : list resource) (a b : list event) :
  outstanding held (a ++ b) = outstanding (outstanding held a) b.
Proof. apply fold_left_app. Qed.

(** Closes a goal that describes the calls of a finished run: the log is
    the old one followed by the calls just made, which give back what they
    obtained and leave [_buf] and [_size] alone. *)
Ltac balanced :=
  rewrite <- ?app_assoc; cbn [app];
  eexists; split; [reflexivity|];
  split;
  [ intros held; cbn [outstanding fold_left account];
    repeat (cbn [release_one resource_eqb]; rewrite ?Z.eqb_refl); reflexivity
  | split; reflexivity ].

(** The same, for a run on which the resources are given back unless a
    [CloseHandle] call raised. *)
Ltac conditionally_balanced :=
  rewrite <- ?app_assoc; cbn [app];
  eexists; split; [reflexivity|];
  split;
  [ first
      [ solve [ intros _ held; cbn [outstanding fold_left account];
                repeat (cbn [release_one resource_eqb]; rewrite ?Z.eqb_refl);
                reflexivity ]
      | intros Hno; exfalso; eapply Hno; cbn [In]; eauto 10 ]
  | split; reflexivity ].

Section WindowsBalance.

Context {W : Type} `{OS W}.
Variable os : os_module.

Lemma windows_create_loop_balanced (fuel : nat) (name : option string)
                                   (size : Z) :
  forall (s : state W) o s',
    windows_create_loop os fuel name size s = (o, s') ->
    exists evs,
      trace s' = (trace s ++ evs)%list
      /\ (forall held, outstanding held evs = held)
      /\ unfinished s s'.
Proof.
  induction fuel as [|fuel IH]; intros s o s' Hrun.
  - unfold windows_create_loop, out_of_fuel in Hrun. finished Hrun.
    exists []. rewrite app_nil_r. repeat split.
  - cbn [windows_create_loop] in Hrun. unfold bind at 1 in Hrun.
    destruct (candidate_name os name s) as (tname & s0 & E0 & Hself & Htrace & Hn).
    rewrite E0 in Hrun. clear E0.
    run_monad Hrun. unfold unfinished. rewrite <- Hself, <- Htrace.
    split_call Hrun; [|finished Hrun; balanced].
    split_call Hrun.
    + destruct (Z.eqb_spec v0 ERROR_ALREADY_EXISTS) as [Eq | Hcode].
      * destruct name as [n|]; split_call Hrun; try (finished Hrun; balanced).
        apply IH in Hrun. cbn [world self trace entropy cursor] in Hrun.
        destruct Hrun as (evs & Ht & Hbal & Hb & Hs).
        rewrite Ht, <- !app_assoc. cbn [app].
        eexists. split; [reflexivity|]. split; [|split; assumption].
        intros held.
        change ((?a :: ?b :: ?c :: evs)) with ([a; b; c] ++ evs)%list.
        rewrite outstanding_app. cbn [outstanding fold_left account].
        rewrite release_one_head. apply Hbal.
      * split_call Hrun; split_call Hrun; finished Hrun; balanced.
    + split_call Hrun; finished Hrun; balanced.
Qed.

End WindowsBalance.

Section WindowsBalanceAttach.

Context {W : Type} `{OS W}.
Variable os : os_module.

(** On the attach path the probe view is unmapped by the second [try]
    block, which is not reached when closing the handle raises. *)
Lemma windows_attach_balanced (name : option string) (s : state W) o s' :
  windows_attach name s = (o, s') ->
  exists evs,
    trace s' = (trace s ++ evs)%list
    /\ ((forall h e, ~ In (CloseHandle h, Raises e) evs) ->
        forall held, outstanding held evs = held)
    /\ unfinished s s'.
Proof.
  intros Hrun. unfold windows_attach in Hrun. run_monad Hrun.
  cbn [world self trace entropy cursor] in Hrun. unfold unfinished.
  split_call Hrun; [|finished Hrun; conditionally_balanced].
  split_call Hrun; split_call Hrun; try (finished Hrun; conditionally_balanced).
  split_call Hrun.
  - split_call Hrun; split_call Hrun; finished Hrun; conditionally_balanced.
  - split_call Hrun; finished Hrun; conditionally_balanced.
Qed.

Lemma init_refused_or_valid (name : option string) (create : bool)
                            (size : Z) (s : state W) :
  (exists e s',
     (forall fuel, _SharedMemory_init os fuel name create size s = (Raise e, s'))
     /\ trace s' = trace s /\ unfinished s s')
  \/ valid_arguments os name create size s.
Proof.
  destruct (Z.ltb_spec size 0) as [Hneg | Hnonneg].
  { left. eexists _, s.
    split; [intros fuel; apply negative_size_run; assumption|].
    repeat split. }
  assert ((size >=? 0) = true) as Hge
    by (rewrite Z.geb_leb; apply Z.leb_le; lia).
  destruct create.
  - destruct (Z.eq_dec size 0) as [-> | Hnz].
    { left. eexists _, _.
      split; [intros fuel; apply zero_size_creation_run|].
      repeat split. }
    destruct name as [n|].
    + right. split; [assumption|]. split; [intros _; assumption | discriminate].
    + destruct (Z.eq_dec
                  (Z.land (_flags (self (checked os true s))) (O_EXCL os)) 0)
        as [E | Hx].
      * left. eexists _, _. split; [|split; [|split]].
        -- intros fuel. unfold _SharedMemory_init, bind.
           rewrite Hge. apply Z.eqb_neq in Hnz. cbn [negb]. unfold ret at 1.
           unfold setattr at 1. unfold getattr at 1. rewrite Hnz.
           unfold ret at 1.
           unfold checked, assigned in E. cbn [self] in E. cbn [self].
           rewrite E. cbn. reflexivity.
        -- reflexivity.
        -- reflexivity.
        -- reflexivity.
      * right. split; [assumption|]. split; intros _; assumption.
  - destruct name as [n|].
    + right. split; [assumption|]. split; discriminate.
    + destruct (Z.eq_dec (Z.land (_flags (self s)) (O_EXCL os)) 0) as [E | Hx].
      * left. exists MissingName, s. split; [|repeat split].
        intros fuel. unfold _SharedMemory_init, bind. rewrite Hge.
        simpl. unfold getattr. rewrite E. reflexivity.
      * right. split; [assumption|]. split; [discriminate|].
        intros _. assumption.
Qed.

Lemma windows_init_balanced (fuel : nat) (name : option string)
                            (create : bool) (size : Z) (s : state W) o s' :
  _USE_POSIX os = false ->
  _SharedMemory_init os fuel name create size s = (o, s') ->
  exists evs,
    trace s' = (trace s ++ evs)%list
    /\ ((forall h e, ~ In (CloseHandle h, Raises e) evs) ->
        forall held, outstanding held evs = held)
    /\ (o <> Ok tt -> unfinished s s').
Proof.
  intros Hnt Hrun.
  destruct (init_refused_or_valid name create size s)
    as [(e & s1 & E & Ht & Hu) | Hv].
  { rewrite (E fuel) in Hrun. apply run_result_inv in Hrun.
    destruct Hrun as [<- <-]. exists []. rewrite app_nil_r.
    split; [assumption|]. split; [reflexivity|]. intros _. assumption. }
  rewrite (init_valid os fuel name create size s Hv) in Hrun.
  unfold platform_branch in Hrun. rewrite Hnt in Hrun.
  assert (Hchecked : trace (checked os create s) = trace s
                     /\ unfinished s (checked os create s))
    by (destruct create; repeat split).
  destruct Hchecked as [Htc [Hbc Hsc]].
  destruct create.
  - unfold bind at 1 2 in Hrun.
    destruct (windows_create_loop os fuel name size (checked os true s))
      as [o1 s1] eqn:Eloop.
    destruct (windows_create_loop_balanced os fuel name size _ _ _ Eloop)
      as (evs & Ht & Hbal & Hb & Hs).
    rewrite Htc in Ht.
    destruct o1 as [[] | e1 | ].
    + destruct (windows_create_loop_ok os fuel name size _ _ Eloop)
        as (pre & tname & h & code & m & r & _ & Hself & _).
      unfold ret in Hrun.
      rewrite (finish_run size s1 (creator_mapping m size tname)) in Hrun
        by (rewrite Hself; reflexivity).
      apply run_result_inv in Hrun; destruct Hrun as [<- <-];
      cbn [assigned trace self]. exists evs. split; [exact Ht|].
      split; [intros _; exact Hbal|]. intros Hne. now elim Hne.
    + apply run_result_inv in Hrun; destruct Hrun as [<- <-];
      cbn [assigned trace self]. exists evs. split; [exact Ht|].
      split; [intros _; exact Hbal|]. intros _.
      split; [rewrite Hb | rewrite Hs]; assumption.
    + apply run_result_inv in Hrun; destruct Hrun as [<- <-];
      cbn [assigned trace self]. exists evs. split; [exact Ht|].
      split; [intros _; exact Hbal|]. intros _.
      split; [rewrite Hb | rewrite Hs]; assumption.
  - unfold bind at 1 in Hrun. unfold checked in *.
    destruct (windows_attach name s) as [o1 s1] eqn:Eatt.
    destruct (windows_attach_balanced name s o1 s1 Eatt)
      as (evs & Ht & Hbal & Hb & Hs).
    destruct o1 as [q | e1 | ].
    + destruct (windows_attach_ok name q s s1 Eatt)
        as (h & p & r0 & m & r & _ & Hself).
      rewrite (finish_run q s1 (attacher_mapping m q name)) in Hrun
        by (rewrite Hself; reflexivity).
      apply run_result_inv in Hrun; destruct Hrun as [<- <-];
      cbn [assigned trace self]. exists evs. split; [exact Ht|].
      split; [exact Hbal|]. intros Hne. now elim Hne.
    + apply run_result_inv in Hrun; destruct Hrun as [<- <-];
      cbn [assigned trace self]. exists evs. split; [exact Ht|].
      split; [exact Hbal|]. intros _. split; assumption.
    + apply run_result_inv in Hrun; destruct Hrun as [<- <-];
      cbn [assigned trace self]. exists evs. split; [exact Ht|].
      split; [exact Hbal|]. intros _. split; assumption.
Qed.

End WindowsBalanceAttach.

(** ** What the POSIX branch calls *)

Lemma never_app (p : syscall -> bool) (a b : list event) :
  never p a -> never p b -> never p (a ++ b).
Proof. intros Ha Hb. apply Forall_app. split; assumption. Qed.

Ltac framed :=
  rewrite <- ?app_assoc; cbn [app];
  eexists; split; [reflexivity|];
  split; [split; reflexivity|].

Ltac no_such_call :=
  first [ intros Hc; discriminate Hc
        | intros [? Hok]; discriminate Hok
        | intros _; unfold never; repeat constructor
        | unfold never; repeat constructor ].

Section PosixFrame.

Context {W : Type} `{OS W}.
Variable os : os_module.

Lemma posix_name_loop_framed (fuel : nat) :
  forall (s : state W) o s',
    posix_name_loop os fuel s = (o, s') ->
    exists evs,
      trace s' = (trace s ++ evs)%list
      /\ unfinished s s'
      /\ Forall (fun ev => is_shm_open (fst ev) = true) evs.
Proof.
  induction fuel as [|fuel IH]; intros s o s' Hrun.
  - unfold posix_name_loop, out_of_fuel in Hrun.
    apply run_result_inv in Hrun. destruct Hrun as [_ <-].
    exists []. rewrite app_nil_r. repeat split. constructor.
  - cbn [posix_name_loop] in Hrun. unfold bind at 1 in Hrun.
    rewrite make_filename_run in Hrun.
    run_monad Hrun. cbn [world self trace entropy cursor after_token] in Hrun.
    split_call Hrun.
    + apply run_result_inv in Hrun. destruct Hrun as [_ <-].
      cbn [world self trace entropy cursor]. framed. repeat constructor.
    + destruct (is_FileExistsError e).
      * apply IH in Hrun. cbn [world self trace entropy cursor] in Hrun.
        destruct Hrun as (evs & Ht & Hu & Hall).
        rewrite Ht, <- app_assoc. cbn [app]. eexists. split; [reflexivity|].
        split; [exact Hu|]. constructor; [reflexivity | exact Hall].
      * apply run_result_inv in Hrun. destruct Hrun as [_ <-].
        cbn [world self trace entropy cursor]. framed. repeat constructor.
Qed.

Lemma posix_name_phase_framed (fuel : nat) (name : option string)
                              (s : state W) o s' :
  posix_name_phase os fuel name s = (o, s') ->
  exists evs,
    trace s' = (trace s ++ evs)%list
    /\ unfinished s s'
    /\ Forall (fun ev => is_shm_open (fst ev) = true) evs.
Proof.
  intros Hrun. destruct name as [n|]; unfold posix_name_phase in Hrun.
  - run_monad Hrun. cbn [world self trace entropy cursor] in Hrun.
    split_call Hrun; apply run_result_inv in Hrun; destruct Hrun as [_ <-];
      cbn [world self trace entropy cursor]; framed; repeat constructor.
  - unfold bind at 1 in Hrun.
    destruct (posix_name_loop os fuel s) as [o1 s1] eqn:Eloop.
    destruct (posix_name_loop_framed fuel s o1 s1 Eloop) as (evs & Ht & Hu & Hall).
    destruct o1; unfold ret in Hrun;
      apply run_result_inv in Hrun; destruct Hrun as [_ <-];
      exists evs; repeat split; try assumption; apply Hu.
Qed.

Lemma posix_map_phase_framed (create : bool) (size : Z) (s : state W) o s' :
  posix_map_phase create size s = (o, s') ->
  exists evs,
    trace s' = (trace s ++ evs)%list
    /\ unfinished s s'
    /\ (create = false -> never is_ftruncate evs)
    /\ ((exists q, o = Ok q) -> never is_unlink evs).
Proof.
  intros Hrun. unfold posix_map_phase in Hrun.
  destruct create; cbn [andb] in Hrun.
  - destruct (negb (size =? 0)).
    + run_monad Hrun. cbn [world self trace entropy cursor] in Hrun.
      split_call Hrun; [split_call Hrun; [split_call Hrun|]|];
        try (destruct (is_OSError _); [split_call Hrun|]);
        apply run_result_inv in Hrun; destruct Hrun as [<- <-];
        cbn [world self trace entropy cursor]; framed;
        (split; no_such_call).
    + run_monad Hrun. cbn [world self trace entropy cursor] in Hrun.
      split_call Hrun; [split_call Hrun|];
        try (destruct (is_OSError _); [split_call Hrun|]);
        apply run_result_inv in Hrun; destruct Hrun as [<- <-];
        cbn [world self trace entropy cursor]; framed;
        (split; no_such_call).
  - run_monad Hrun. cbn [world self trace entropy cursor] in Hrun.
    split_call Hrun; [split_call Hrun|];
      try (destruct (is_OSError _); [split_call Hrun|]);
      apply run_result_inv in Hrun; destruct Hrun as [<- <-];
      cbn [world self trace entropy cursor]; framed;
      (split; no_such_call).
Qed.

End PosixFrame.

Section PosixInitFrame.

Context {W : Type} `{OS W}.
Variable os : os_module.

Lemma opened_only (p : syscall -> bool) (evs : list event) :
  (forall c, is_shm_open c = true -> p c = false) ->
  Forall (fun ev => is_shm_open (fst ev) = true) evs ->
  never p evs.
Proof.
  intros Hp Hall. unfold never.
  apply (Forall_impl _ (fun ev Hev => Hp (fst ev) Hev) Hall).
Qed.

Lemma posix_init_framed (fuel : nat) (name : option string) (create : bool)
                        (size : Z) (s : state W) o s' :
  _USE_POSIX os = true ->
  _SharedMemory_init os fuel name create size s = (o, s') ->
  exists evs,
    trace s' = (trace s ++ evs)%list
    /\ (o <> Ok tt -> unfinished s s')
    /\ (create = false -> never is_ftruncate evs)
    /\ (o = Ok tt -> never is_unlink evs).
Proof.
  intros Hposix Hrun.
  destruct (init_refused_or_valid os name create size s)
    as [(e & s1 & E & Ht & Hu) | Hv].
  { rewrite (E fuel) in Hrun. apply run_result_inv in Hrun.
    destruct Hrun as [<- <-]. exists []. rewrite app_nil_r.
    split; [assumption|]. split; [intros _; assumption|].
    split; intros _; constructor. }
  rewrite (init_valid os fuel name create size s Hv) in Hrun.
  unfold platform_branch in Hrun. rewrite Hposix, posix_branch_phases in Hrun.
  assert (Hchecked : trace (checked os create s) = trace s
                     /\ unfinished s (checked os create s))
    by (destruct create; repeat split).
  destruct Hchecked as [Htc [Hbc Hsc]].
  unfold bind at 1 2 in Hrun.
  destruct (posix_name_phase os fuel name (checked os create s))
    as [o1 s1] eqn:Ename.
  destruct (posix_name_phase_framed os fuel name _ _ _ Ename)
    as (evs1 & Ht1 & [Hb1 Hs1] & Hall1).
  rewrite Htc in Ht1. rewrite Hbc in Hb1. rewrite Hsc in Hs1.
  pose proof (opened_only is_ftruncate evs1
                ltac:(intros []; (discriminate || reflexivity)) Hall1) as Hnf1.
  pose proof (opened_only is_unlink evs1
                ltac:(intros []; (discriminate || reflexivity)) Hall1) as Hnu1.
  destruct o1 as [[] | e1 | ].
  2,3: apply run_result_inv in Hrun; destruct Hrun as [<- <-];
       exists evs1; split; [exact Ht1|]; split; [intros _; split; assumption|];
       split; [intros _; assumption | discriminate].
  unfold bind at 1 in Hrun.
  destruct (posix_map_phase create size s1) as [o2 s2] eqn:Emap.
  destruct (posix_map_phase_framed create size s1 o2 s2 Emap)
    as (evs2 & Ht2 & [Hb2 Hs2] & Hnf2 & Hnu2).
  rewrite Ht1, <- app_assoc in Ht2. rewrite Hb1 in Hb2. rewrite Hs1 in Hs2.
  destruct o2 as [q | e2 | ].
  2,3: apply run_result_inv in Hrun; destruct Hrun as [<- <-];
       exists (evs1 ++ evs2)%list; split; [exact Ht2|];
       split; [intros _; split; assumption|];
       split; [intros Hc; apply never_app; [assumption | apply Hnf2; exact Hc]
              | discriminate].
  destruct (posix_map_phase_ok create size q s1 s2 Emap)
    as (pre2 & m & _ & Hself2).
  unfold posix_register_phase in Hrun. run_monad Hrun.
  cbn [world self trace entropy cursor] in Hrun.
  split_call Hrun.
  - fold (finish (W := W) q) in Hrun.
    rewrite (finish_run q _ {| mm_id := m; mm_fileno := _fd (self s1);
                               mm_length := q; mm_tagname := None;
                               mm_access := ACCESS_DEFAULT |}) in Hrun
      by (cbn [self]; rewrite Hself2; reflexivity).
    apply run_result_inv in Hrun. destruct Hrun as [<- <-].
    cbn [assigned self trace]. rewrite Ht2, <- !app_assoc.
    eexists. split; [reflexivity|].
    split; [intros Hne; now elim Hne|].
    split.
    + intros Hc. apply never_app; [assumption|].
      apply never_app; [apply Hnf2; exact Hc | repeat constructor].
    + intros _. apply never_app; [assumption|].
      apply never_app; [apply Hnu2; eexists; reflexivity | repeat constructor].
  - apply run_result_inv in Hrun. destruct Hrun as [<- <-].
    cbn [self trace]. rewrite Ht2, <- !app_assoc.
    eexists. split; [reflexivity|].
    split; [intros _; split; assumption|].
    split; [|discriminate].
    intros Hc. apply never_app; [assumption|].
    apply never_app; [apply Hnf2; exact Hc | repeat constructor].
Qed.

End PosixInitFrame.

(** ** Every outcome of an open *)

Section EveryOutcome.

Context {W : Type} `{OS W}.
Variable os : os_module.

(** X1: on Windows, whether an open succeeds, raises or is cut short,
    and whatever its arguments, the calls it made are appended to the log
    and, unless one of its [CloseHandle] calls raised, they have given back
    every handle obtained from [CreateFileMapping] or [OpenFileMapping] and
    every probe view obtained from [MapViewOfFile]: only the [mmap] object
    outlives the call. *)
Theorem windows_open_gives_back
  (fuel : nat) (name : option string) (create : bool) (size : Z)
  (s : state W) :
  _USE_POSIX os = false ->
  exists evs,
    trace (snd (_SharedMemory_init os fuel name create size s))
    = (trace s ++ evs)%list
    /\ ((forall h e, ~ In (CloseHandle h, Raises e) evs) ->
        outstanding [] evs = []).
Proof.
  intros Hnt.
  destruct (_SharedMemory_init os fuel name create size s) as [o s'] eqn:Hrun.
  destruct (windows_init_balanced os fuel name create size s o s' Hnt Hrun)
    as (evs & Ht & Hbal & _).
  exists evs. split; [exact Ht|]. intros Hno. apply (Hbal Hno).
Qed.

(** X2: an open that does not succeed leaves [_buf] and [_size] as they
    were, on either platform: a handle whose initialisation failed exposes
    no buffer and no size. *)
Theorem failed_open_sets_no_buffer
  (fuel : nat) (name : option string) (create : bool) (size : Z)
  (s : state W) :
  fst (_SharedMemory_init os fuel name create size s) <> Ok tt ->
  _buf (self (snd (_SharedMemory_init os fuel name create size s)))
  = _buf (self s)
  /\ _size (self (snd (_SharedMemory_init os fuel name create size s)))
     = _size (self s).
Proof.
  destruct (_SharedMemory_init os fuel name create size s) as [o s'] eqn:Hrun.
  cbn [fst snd]. intros Hne.
  destruct (_USE_POSIX os) eqn:Hp.
  - destruct (posix_init_framed os fuel name create size s o s' Hp Hrun)
      as (evs & _ & Hu & _). apply (Hu Hne).
  - destruct (windows_init_balanced os fuel name create size s o s' Hp Hrun)
      as (evs & _ & _ & Hu). apply (Hu Hne).
Qed.

(** X3: on POSIX an attach ([create] false) never calls [ftruncate],
    whatever its outcome: attaching cannot resize the object. *)
Theorem posix_attach_never_truncates
  (fuel : nat) (name : option string) (size : Z) (s : state W) :
  _USE_POSIX os = true ->
  exists evs,
    trace (snd (_SharedMemory_init os fuel name false size s))
    = (trace s ++ evs)%list
    /\ never is_ftruncate evs.
Proof.
  intros Hposix.
  destruct (_SharedMemory_init os fuel name false size s) as [o s'] eqn:Hrun.
  destruct (posix_init_framed os fuel name false size s o s' Hposix Hrun)
    as (evs & Ht & _ & Hnf & _).
  exists evs. split; [exact Ht | apply Hnf; reflexivity].
Qed.

(** X4: on POSIX an open that succeeds has not called [unlink]: the
    method is only ever called from the [except OSError] handler, after
    which the open fails. *)
Theorem posix_success_never_unlinks
  (fuel : nat) (name : option string) (create : bool) (size : Z)
  (s s' : state W) :
  _USE_POSIX os = true ->
  _SharedMemory_init os fuel name create size s = (Ok tt, s') ->
  exists evs,
    trace s' = (trace s ++ evs)%list /\ never is_unlink evs.
Proof.
  intros Hposix Hrun.
  destruct (posix_init_framed os fuel name create size s _ s' Hposix Hrun)
    as (evs & Ht & _ & _ & Hnu).
  exists evs. split; [exact Ht | apply Hnu; reflexivity].
Qed.

End EveryOutcome.

(** X1 on the reference kernel: creating [t] when it exists, a run that
    raises. *)
Lemma windows_open_gives_back_witness :
  exists evs,
    trace (snd windows_create_t_again) = ([] ++ evs)%list
    /\ outstanding [] evs = [].
Proof.
  destruct (windows_open_gives_back nt 8 (Some "t") true 10
              (boot nt windows_with_t) eq_refl) as (evs & Ht & Hbal).
  exists evs. split; [exact Ht|]. apply Hbal.
  intros h e Hin.
  assert (In (CloseHandle h, Raises e)
             (trace (snd windows_create_t_again))) as Hin'
    by (unfold windows_create_t_again, open_windows; rewrite Ht; exact Hin).
  vm_compute in Hin'.
  repeat (destruct Hin' as [Hin' | Hin']; [discriminate Hin'|]).
  exact Hin'.
Defined.

(** X2 on the reference kernel: the creation on Linux whose mapping
    fails. *)
Lemma failed_open_sets_no_buffer_witness :
  _buf (self (snd posix_create_huge)) = None
  /\ _size (self (snd posix_create_huge)) = None.
Proof.
  apply (failed_open_sets_no_buffer linux 8 (Some "x") true (2 ^ 50)
           (boot linux Posix.empty)).
  vm_compute. discriminate.
Defined.

(** X3 on the reference kernel. *)
Lemma posix_attach_never_truncates_witness :
  exists evs,
    trace (snd posix_attach_t) = ([] ++ evs)%list /\ never is_ftruncate evs.
Proof.
  apply (posix_attach_never_truncates linux 8 (Some "t") 0
           (boot linux posix_with_t) eq_refl).
Defined.

(** X4 on the reference kernel. *)
Lemma posix_success_never_unlinks_witness :
  exists evs,
    trace (snd posix_create_t) = ([] ++ evs)%list /\ never is_unlink evs.
Proof.
  apply (posix_success_never_unlinks linux 8 (Some "t") true 100
           (boot linux Posix.empty) (snd posix_create_t) eq_refl).
  vm_compute. reflexivity.
Defined.

(** ** Failures on the attach paths *)

Section AttachFailures.

Context {W : Type} `{OS W}.
Variable os : os_module.

Lemma named_attach_valid (n : string) (size : Z) (s : state W) :
  0 <= size -> valid_arguments os (Some n) false size s.
Proof. intros Hsize. split; [assumption|]. split; discriminate. Qed.

(** X5: on POSIX the [except OSError] handler does not look at [create].
    When an attach by name has opened the object and read its size, and
    [mmap] then raises an [OSError], the open calls [unlink] on the name it
    attached to, an object it did not create, and re-raises the error. *)
Theorem posix_failed_attach_unlinks
  (fuel : nat) (n : string) (size : Z) (s : state W)
  (fd q r : Z) (e : exn) (w1 w2 w3 w4 : W) :
  0 <= size ->
  _USE_POSIX os = true ->
  os_call (shm_open (if _prepend_leading_slash (self s) then "/" ++ n else n)
                    (_flags (self s)) (_mode (self s)))
          (world s) = (Returns fd, w1) ->
  os_call (fstat fd) w1 = (Returns q, w2) ->
  os_call (mmap_mmap fd q None ACCESS_DEFAULT) w2 = (Raises e, w3) ->
  is_OSError e = true ->
  os_call (unlink (Some (if _prepend_leading_slash (self s)
                         then "/" ++ n else n))) w3 = (Returns r, w4) ->
  exists s',
    _SharedMemory_init os fuel (Some n) false size s = (Raise e, s')
    /\ world s' = w4
    /\ trace s'
       = (trace s
          ++ [(shm_open (if _prepend_leading_slash (self s)
                         then ("/" ++ n)%string else n)
                        (_flags (self s)) (_mode (self s)), Returns fd);
              (fstat fd, Returns q);
              (mmap_mmap fd q None ACCESS_DEFAULT, Raises e);
              (unlink (Some (if _prepend_leading_slash (self s)
                             then ("/" ++ n)%string else n)), Returns r)])%list.
Proof.
  intros Hsize Hposix Hopen Hstat Hmap Hos Hunlink.
  rewrite (init_valid os fuel (Some n) false size s
             (named_attach_valid n size s Hsize)).
  unfold platform_branch. rewrite Hposix, posix_branch_phases.
  unfold posix_name_phase, posix_map_phase, checked.
  cbv beta iota zeta delta [bind getattr setattr call ret try_except raise].
  cbn [self world trace entropy cursor andb].
  rewrite Hopen.
  cbn [self world trace entropy cursor set_fd set_name _fd _name].
  rewrite Hstat.
  cbn [self world trace entropy cursor set_fd set_name _fd _name].
  rewrite Hmap. rewrite Hos.
  cbn [self world trace entropy cursor set_fd set_name _fd _name].
  rewrite Hunlink.
  eexists. split; [reflexivity|]. split; [reflexivity|].
  cbn [trace]. rewrite <- !app_assoc. reflexivity.
Qed.

(** X6: on the Windows attach path the probe view is unmapped by the
    second [try] block only.  When [CloseHandle] raises after
    [MapViewOfFile] has returned a view, the error leaves from the first
    [finally] clause: the run ends there, the probe view is never passed to
    [UnmapViewOfFile] and no mapping is opened. *)
Theorem windows_attach_close_failure_keeps_probe
  (fuel : nat) (n : string) (size : Z) (s : state W)
  (h p : Z) (e : exn) (w1 w2 w3 : W) :
  0 <= size ->
  _USE_POSIX os = false ->
  os_call (OpenFileMapping FILE_MAP_READ false (Some n)) (world s)
  = (Returns h, w1) ->
  os_call (MapViewOfFile h FILE_MAP_READ 0 0 0) w1 = (Returns p, w2) ->
  os_call (CloseHandle h) w2 = (Raises e, w3) ->
  exists s',
    _SharedMemory_init os fuel (Some n) false size s = (Raise e, s')
    /\ world s' = w3
    /\ trace s'
       = (trace s
          ++ [(OpenFileMapping FILE_MAP_READ false (Some n), Returns h);
              (MapViewOfFile h FILE_MAP_READ 0 0 0, Returns p);
              (CloseHandle h, Raises e)])%list
    /\ outstanding [] [(OpenFileMapping FILE_MAP_READ false (Some n), Returns h);
                       (MapViewOfFile h FILE_MAP_READ 0 0 0, Returns p);
                       (CloseHandle h, Raises e)]
       = [View p]
    /\ _mmap (self s') = _mmap (self s).
Proof.
  intros Hsize Hnt Hopen Hprobe Hclose.
  rewrite (init_valid os fuel (Some n) false size s
             (named_attach_valid n size s Hsize)).
  unfold platform_branch. rewrite Hnt.
  unfold windows_attach, checked.
  cbv beta iota zeta delta [bind getattr setattr call ret try_finally raise].
  cbn [self world trace entropy cursor].
  rewrite Hopen. cbn [self world trace entropy cursor].
  rewrite Hprobe. cbn [self world trace entropy cursor].
  rewrite Hclose.
  eexists. split; [reflexivity|]. split; [reflexivity|].
  split; [cbn [trace]; rewrite <- !app_assoc; reflexivity|].
  split; [|reflexivity].
  cbn [outstanding fold_left account release_one resource_eqb].
  rewrite Z.eqb_refl. reflexivity.
Qed.

End AttachFailures.

(** X5 on the reference kernel: attaching to an object too large to be
    mapped removes its name. *)
Lemma posix_failed_attach_unlinks_witness :
  exists s',
    _SharedMemory_init linux 8 (Some "big") false 0 (boot linux posix_with_big)
    = (Raise (OSError 12 "Cannot allocate memory"), s')
    /\ Posix.names (world s') = []
    /\ trace s'
       = [(shm_open "/big" 2 384, Returns 4);
          (fstat 4, Returns (2 ^ 50));
          (mmap_mmap 4 (2 ^ 50) None ACCESS_DEFAULT,
           Raises (OSError 12 "Cannot allocate memory"));
          (unlink (Some "/big"), Returns 0)].
Proof.
  pose (k1 := snd (Posix.step linux (shm_open "/big" 2 384) posix_with_big)).
  pose (k2 := snd (Posix.step linux (unlink (Some "/big")) k1)).
  assert (os_call (shm_open (if _prepend_leading_slash
                                    (self (boot linux posix_with_big))
                             then "/" ++ "big" else "big")
                     (_flags (self (boot linux posix_with_big)))
                     (_mode (self (boot linux posix_with_big))))
            (world (boot linux posix_with_big)) = (Returns 4, k1)) as Hopen
    by (vm_compute; reflexivity).
  assert (os_call (fstat 4) k1 = (Returns (2 ^ 50), k1)) as Hstat
    by (vm_compute; reflexivity).
  assert (os_call (mmap_mmap 4 (2 ^ 50) None ACCESS_DEFAULT) k1
          = (Raises (OSError 12 "Cannot allocate memory"), k1)) as Hmap
    by (vm_compute; reflexivity).
  assert (os_call (unlink (Some (if _prepend_leading_slash
                                      (self (boot linux posix_with_big))
                                 then "/" ++ "big" else "big"))) k1
          = (Returns 0, k2)) as Hunlink
    by (vm_compute; reflexivity).
  destruct (posix_failed_attach_unlinks linux 8 "big" 0
              (boot linux posix_with_big) _ _ _ _ _ _ _ _
              ltac:(lia) eq_refl Hopen Hstat Hmap eq_refl Hunlink)
    as (s' & Hrun & Hworld & Htrace).
  exists s'. split; [exact Hrun|]. split; [rewrite Hworld; reflexivity|].
  exact Htrace.
Defined.

(** X6 on a scripted system whose third answer, to [CloseHandle], is an
    error. *)
Lemma windows_attach_close_failure_keeps_probe_witness :
  exists s',
    _SharedMemory_init nt 8 (Some "t") false 0
      (boot nt [Returns 7; Returns 9; Raises (OSError 6 "The handle is invalid")])
    = (Raise (OSError 6 "The handle is invalid"), s')
    /\ world s' = []
    /\ trace s'
       = [(OpenFileMapping FILE_MAP_READ false (Some "t"), Returns 7);
          (MapViewOfFile 7 FILE_MAP_READ 0 0 0, Returns 9);
          (CloseHandle 7, Raises (OSError 6 "The handle is invalid"))]
    /\ outstanding [] [(OpenFileMapping FILE_MAP_READ false (Some "t"), Returns 7);
                       (MapViewOfFile 7 FILE_MAP_READ 0 0 0, Returns 9);
                       (CloseHandle 7, Raises (OSError 6 "The handle is invalid"))]
       = [View 9]
    /\ _mmap (self s') = None.
Proof.
  apply (windows_attach_close_failure_keeps_probe nt 8 "t" 0
           (boot nt [Returns 7; Returns 9;
                     Raises (OSError 6 "The handle is invalid")])
           7 9 (OSError 6 "The handle is invalid")
           [Returns 9; Raises (OSError 6 "The handle is invalid")]
           [Raises (OSError 6 "The handle is invalid")] []).
  - lia.
  - reflexivity.
  - reflexivity.
  - reflexivity.
  - reflexivity.
Defined.

(** ** The handle and the log after a successful open *)

Section Success.

Context {W : Type} `{OS W}.
Variable os : os_module.

Lemma posix_map_phase_ok_exact (create : bool) (size q : Z) (s s' : state W) :
  posix_map_phase create size s = (Ok q, s') ->
  exists truncation m,
    trace s'
    = (trace s ++ truncation
       ++ [(fstat (_fd (self s)), Returns q);
           (mmap_mmap (_fd (self s)) q None ACCESS_DEFAULT, Returns m)])%list
    /\ (create && negb (size =? 0) = true ->
        exists r, truncation = [(ftruncate (_fd (self s)) size, Returns r)])
    /\ (create && negb (size =? 0) = false -> truncation = [])
    /\ self s'
       = set_mmap (Some {| mm_id := m; mm_fileno := _fd (self s);
                           mm_length := q; mm_tagname := None;
                           mm_access := ACCESS_DEFAULT |}) (self s).
Proof.
  intros Hrun. unfold posix_map_phase in Hrun.
  destruct (create && negb (size =? 0)).
  - run_monad Hrun. cbn [world self trace entropy cursor] in Hrun.
    split_call Hrun.
    + split_call Hrun.
      * split_call Hrun.
        -- finished Hrun.
           exists [(ftruncate (_fd (self s)) size, Returns v)], v1.
           rewrite <- !app_assoc. cbn [app].
           split; [reflexivity|]. split; [intros _; eexists; reflexivity|].
           split; [discriminate | reflexivity].
        -- destruct (is_OSError e); [split_call Hrun|]; discriminate.
      * destruct (is_OSError e); [split_call Hrun|]; discriminate.
    + destruct (is_OSError e); [split_call Hrun|]; discriminate.
  - run_monad Hrun. cbn [world self trace entropy cursor] in Hrun.
    split_call Hrun.
    + split_call Hrun.
      * finished Hrun. exists [], v0. rewrite <- !app_assoc. cbn [app].
        split; [reflexivity|]. split; [discriminate|].
        split; reflexivity.
      * destruct (is_OSError e); [split_call Hrun|]; discriminate.
    + destruct (is_OSError e); [split_call Hrun|]; discriminate.
Qed.

(** X7: a successful open by name on POSIX makes exactly these calls, in
    this order: [shm_open] on the name (with a leading slash when
    [_prepend_leading_slash] is set) with the handle's flags, which a
    creation has set to [O_CREAT | O_EXCL | O_RDWR]; for a creation only,
    [ftruncate] to the requested size; [fstat]; [mmap] of the size [fstat]
    reported; [register].  The descriptor [shm_open] returned is the one
    truncated, queried and mapped, and the size the handle records is the one
    [fstat] reported. *)
Theorem posix_named_open_calls
  (fuel : nat) (n : string) (create : bool) (size : Z) (s s' : state W) :
  _USE_POSIX os = true ->
  _SharedMemory_init os fuel (Some n) create size s = (Ok tt, s') ->
  exists nm fd truncation q m r,
    nm = (if _prepend_leading_slash (self s) then "/" ++ n else n)%string
    /\ trace s'
       = (trace s
          ++ [(shm_open nm (if create then Z.lor (_O_CREX os) (O_RDWR os)
                            else _flags (self s)) (_mode (self s)),
               Returns fd)]
          ++ truncation
          ++ [(fstat fd, Returns q);
              (mmap_mmap fd q None ACCESS_DEFAULT, Returns m);
              (register (Some nm) "shared_memory", Returns r)])%list
    /\ (create = true ->
        exists r0, truncation = [(ftruncate fd size, Returns r0)])
    /\ (create = false -> truncation = [])
    /\ _name (self s') = Some nm
    /\ _fd (self s') = fd
    /\ _size (self s') = Some q.
Proof.
  intros Hposix Hrun.
  pose proof (init_ok_valid _ _ _ _ _ _ _ Hrun) as Hv.
  rewrite (init_valid os fuel (Some n) create size s Hv) in Hrun.
  unfold platform_branch in Hrun. rewrite Hposix, posix_branch_phases in Hrun.
  unfold bind at 1 2 in Hrun.
  destruct (posix_name_phase os fuel (Some n) (checked os create s))
    as [[[] | e | ] s1] eqn:Ename; try discriminate.
  destruct (posix_name_phase_ok os fuel (Some n) _ _ Ename)
    as (pre1 & nm & fd & Ht1 & Hs1 & Hn).
  destruct (Hn n eq_refl) as [-> ->]. clear Hn.
  unfold bind at 1 in Hrun.
  destruct (posix_map_phase create size s1) as [[q | e | ] s2] eqn:Emap;
    try discriminate.
  destruct (posix_map_phase_ok_exact create size q s1 s2 Emap)
    as (truncation & m & Ht2 & Htrue & Hfalse & Hs2).
  unfold posix_register_phase in Hrun. run_monad Hrun.
  cbn [world self trace entropy cursor] in Hrun.
  split_call Hrun; [|discriminate].
  fold (finish (W := W) q) in Hrun.
  rewrite (finish_run q _ {| mm_id := m; mm_fileno := _fd (self s1);
                             mm_length := q; mm_tagname := None;
                             mm_access := ACCESS_DEFAULT |}) in Hrun
    by (cbn [self]; rewrite Hs2; reflexivity).
  apply run_result_inv in Hrun. destruct Hrun as [_ <-].
  cbn [assigned self trace].
  assert (Hfd : _fd (self s1) = fd) by (rewrite Hs1; reflexivity).
  rewrite Hfd in *.
  assert (Hcs : create && negb (size =? 0) = create).
  { destruct create; [|reflexivity].
    destruct Hv as (_ & Hnz & _). specialize (Hnz eq_refl).
    apply Z.eqb_neq in Hnz. rewrite Hnz. reflexivity. }
  rewrite Hcs in Htrue, Hfalse.
  exists (if _prepend_leading_slash (self (checked os create s))
          then ("/" ++ n)%string else n), fd, truncation, q, m, v.
  rewrite Ht2, Ht1, Hs2, Hs1, <- !app_assoc. cbn [app].
  destruct create; cbn [checked assigned self trace set_flags
                        _prepend_leading_slash _flags _mode];
    repeat split; try assumption; try reflexivity.
Qed.

End Success.

(** X7 on the reference kernel: the creation of [t] on Linux. *)
Lemma posix_named_open_calls_witness :
  exists nm fd truncation q m r,
    nm = "/t"
    /\ trace (snd posix_create_t)
       = ([] ++ [(shm_open nm 194 384, Returns fd)]
          ++ truncation
          ++ [(fstat fd, Returns q);
              (mmap_mmap fd q None ACCESS_DEFAULT, Returns m);
              (register (Some nm) "shared_memory", Returns r)])%list
    /\ (true = true -> exists r0, truncation = [(ftruncate fd 100, Returns r0)])
    /\ (true = false -> truncation = [])
    /\ _name (self (snd posix_create_t)) = Some nm
    /\ _fd (self (snd posix_create_t)) = fd
    /\ _size (self (snd posix_create_t)) = Some q.
Proof.
  apply (posix_named_open_calls linux 8 "t" true 100
           (boot linux Posix.empty) (snd posix_create_t) eq_refl).
  vm_compute. reflexivity.
Defined.

Section Consistent.

Context {W : Type} `{OS W}.
Variable os : os_module.

Lemma checked_keeps (create : bool) (s : state W) :
  _mode (self (checked os create s)) = _mode (self s)
  /\ _prepend_leading_slash (self (checked os create s))
     = _prepend_leading_slash (self s)
  /\ (create = false -> _flags (self (checked os create s)) = _flags (self s)).
Proof. destruct create; repeat split. discriminate. Qed.

(** X8: after a successful open, on either platform and on either path,
    the handle is complete and coherent: [_mmap] is set, [_buf] is the
    [memoryview] of that mapping, and [_size] is the length the mapping was
    opened with.  [_mode] and [_prepend_leading_slash] are untouched, and so
    is [_flags] unless the open was a creation. *)
Theorem opened_handle_coherent
  (fuel : nat) (name : option string) (create : bool) (size : Z)
  (s s' : state W) :
  _SharedMemory_init os fuel name create size s = (Ok tt, s') ->
  opened_from create (self s) (self s').
Proof.
  intros Hrun.
  pose proof (init_ok_valid _ _ _ _ _ _ _ Hrun) as Hv.
  rewrite (init_valid os fuel name create size s Hv) in Hrun.
  destruct (checked_keeps create s) as (Hmode & Hslash & Hflags).
  unfold platform_branch in Hrun.
  destruct (_USE_POSIX os) eqn:Hp.
  - rewrite posix_branch_phases in Hrun. unfold bind at 1 2 in Hrun.
    destruct (posix_name_phase os fuel name (checked os create s))
      as [[[] | e | ] s1] eqn:Ename; try discriminate.
    destruct (posix_name_phase_ok os fuel name _ _ Ename)
      as (pre1 & nm & fd & _ & Hs1 & _).
    unfold bind at 1 in Hrun.
    destruct (posix_map_phase create size s1) as [[q | e | ] s2] eqn:Emap;
      try discriminate.
    destruct (posix_map_phase_ok create size q s1 s2 Emap)
      as (pre2 & m & _ & Hs2).
    unfold posix_register_phase in Hrun. run_monad Hrun.
    cbn [world self trace entropy cursor] in Hrun.
    split_call Hrun; [|discriminate].
    fold (finish (W := W) q) in Hrun.
    rewrite (finish_run q _ {| mm_id := m; mm_fileno := _fd (self s1);
                               mm_length := q; mm_tagname := None;
                               mm_access := ACCESS_DEFAULT |}) in Hrun
      by (cbn [self]; rewrite Hs2; reflexivity).
    apply run_result_inv in Hrun. destruct Hrun as [_ <-].
    cbn [assigned self]. rewrite Hs2, Hs1.
    eexists. repeat split; assumption.
  - destruct create.
    + unfold bind at 1 2 in Hrun.
      destruct (windows_create_loop os fuel name size (checked os true s))
        as [[[] | e1 | ] s1] eqn:Eloop; try discriminate.
      destruct (windows_create_loop_ok os fuel name size _ _ Eloop)
        as (pre & tname & h & code & m & r & _ & Hs1 & _).
      unfold ret in Hrun.
      rewrite (finish_run size s1 (creator_mapping m size tname)) in Hrun
        by (rewrite Hs1; reflexivity).
      apply run_result_inv in Hrun. destruct Hrun as [_ <-].
      cbn [assigned self]. rewrite Hs1.
      eexists. repeat split; assumption.
    + unfold bind at 1 in Hrun.
      destruct (windows_attach name (checked os false s))
        as [[q | e1 | ] s1] eqn:Eatt; try discriminate.
      destruct (windows_attach_ok name q _ s1 Eatt)
        as (h & p & r0 & m & r & _ & Hs1).
      rewrite (finish_run q s1 (attacher_mapping m q name)) in Hrun
        by (rewrite Hs1; reflexivity).
      apply run_result_inv in Hrun. destruct Hrun as [_ <-].
      cbn [assigned self]. rewrite Hs1.
      eexists. repeat split; assumption.
Qed.

End Consistent.

(** X8 on the reference kernel: the attach to [t] on Windows. *)
Lemma opened_handle_coherent_witness :
  opened_from false (new_handle nt) (self (snd windows_attach_t)).
Proof.
  apply (opened_handle_coherent nt 8 (Some "t") false 0
           (boot nt windows_with_t) (snd windows_attach_t)).
  vm_compute. reflexivity.
Defined.

(** ** The size passed to [CreateFileMapping] *)

Lemma size_words (size : Z) :
  let hi := Z.land (Z.shiftr size 32) 0xFFFFFFFF in
  let lo := Z.land size 0xFFFFFFFF in
  0 <= hi < 2 ^ 32 /\ 0 <= lo < 2 ^ 32 /\ hi * 2 ^ 32 + lo = size mod 2 ^ 64.
Proof.
  cbv zeta.
  change 0xFFFFFFFF with (Z.ones 32).
  rewrite !Z.land_ones by lia. rewrite Z.shiftr_div_pow2 by lia.
  split; [apply Z.mod_pos_bound; lia|].
  split; [apply Z.mod_pos_bound; lia|].
  change (2 ^ 64) with (2 ^ 32 * 2 ^ 32).
  rewrite Z.rem_mul_r by lia. lia.
Qed.

Section ReservationSize.

Context {W : Type} `{OS W}.
Variable os : os_module.

(** X9: on a successful creation on Windows the size reaches
    [CreateFileMapping] as two words below [2^32] that together make the
    requested size modulo [2^64], while [mmap] is asked for the requested
    size itself: the two agree exactly when the size is below [2^64]. *)
Theorem windows_reservation_size
  (fuel : nat) (name : option string) (size : Z) (s s' : state W) :
  _USE_POSIX os = false ->
  _SharedMemory_init os fuel name true size s = (Ok tt, s') ->
  exists pre tname hi lo h code m r,
    trace s'
    = (pre ++ [(CreateFileMapping INVALID_HANDLE_VALUE NULL PAGE_READWRITE
                  hi lo tname, Returns h);
               (GetLastError, Returns code);
               (mmap_mmap (-1) size (Some tname) ACCESS_READ, Returns m);
               (CloseHandle h, Returns r)])%list
    /\ 0 <= hi < 2 ^ 32 /\ 0 <= lo < 2 ^ 32
    /\ hi * 2 ^ 32 + lo = size mod 2 ^ 64
    /\ (hi * 2 ^ 32 + lo = size <-> size < 2 ^ 64).
Proof.
  intros Hnt Hrun.
  pose proof (init_ok_valid _ _ _ _ _ _ _ Hrun) as (Hsize & _).
  destruct (windows_created os fuel name size s s' Hnt Hrun)
    as (pre & tname & h & code & m & r & Ht & _).
  destruct (size_words size) as (Hhi & Hlo & Hsum).
  exists pre, tname, (Z.land (Z.shiftr size 32) 0xFFFFFFFF),
         (Z.land size 0xFFFFFFFF), h, code, m, r.
  split; [exact Ht|]. split; [exact Hhi|]. split; [exact Hlo|].
  split; [exact Hsum|].
  rewrite Hsum. split.
  - intros Heq. rewrite <- Heq. apply Z.mod_pos_bound. lia.
  - intros Hlt. apply Z.mod_small. lia.
Qed.

End ReservationSize.

(** X9 on the reference kernel: a creation of [2^32 + 5] bytes. *)
Lemma windows_reservation_size_witness :
  exists pre tname hi lo h code m r,
    trace (snd (open_windows (Some "w") true (2 ^ 32 + 5) Windows.empty))
    = (pre ++ [(CreateFileMapping INVALID_HANDLE_VALUE NULL PAGE_READWRITE
                  hi lo tname, Returns h);
               (GetLastError, Returns code);
               (mmap_mmap (-1) (2 ^ 32 + 5) (Some tname) ACCESS_READ, Returns m);
               (CloseHandle h, Returns r)])%list
    /\ 0 <= hi < 2 ^ 32 /\ 0 <= lo < 2 ^ 32
    /\ hi * 2 ^ 32 + lo = (2 ^ 32 + 5) mod 2 ^ 64
    /\ (hi * 2 ^ 32 + lo = 2 ^ 32 + 5 <-> 2 ^ 32 + 5 < 2 ^ 64).
Proof.
  apply (windows_reservation_size nt 8 (Some "w") (2 ^ 32 + 5)
           (boot nt Windows.empty)
           (snd (open_windows (Some "w") true (2 ^ 32 + 5) Windows.empty))
           eq_refl).
  vm_compute. reflexivity.
Defined.

(** ** Opens that do not loop *)

Ltac split_call_goal :=
  match goal with
  | |- context [os_call ?c ?w] =>
      let v := fresh "v" in
      let e := fresh "e" in
      let w' := fresh "w" in
      let E := fresh "E" in
      destruct (os_call c w) as [[v | e] w'] eqn:E;
      cbv beta iota zeta;
      cbn [world self trace entropy cursor]
  end.

Section NamedOpen.

Context {W : Type} `{OS W}.
Variable os : os_module.

Lemma windows_named_loop_once (fuel : nat) (n : string) (size : Z)
                              (s : state W) :
  windows_create_loop os (S fuel) (Some n) size s
  = windows_create_loop os 1 (Some n) size s
  /\ fst (windows_create_loop os 1 (Some n) size s) <> OutOfFuel.
Proof.
  cbn [windows_create_loop].
  cbv beta iota zeta delta
    [bind try_finally ret raise out_of_fuel setattr getattr call].
  cbn [world self trace entropy cursor].
  split_call_goal; [|split; [reflexivity | discriminate]].
  split_call_goal.
  - destruct (v0 =? ERROR_ALREADY_EXISTS).
    + split_call_goal; (split; [reflexivity | discriminate]).
    + split_call_goal; split_call_goal; (split; [reflexivity | discriminate]).
  - split_call_goal; (split; [reflexivity | discriminate]).
Qed.

Lemma windows_attach_returns (name : option string) (s : state W) :
  fst (windows_attach name s) <> OutOfFuel.
Proof.
  unfold windows_attach.
  cbv beta iota zeta delta
    [bind try_finally ret raise out_of_fuel setattr getattr call].
  cbn [world self trace entropy cursor].
  split_call_goal; [|discriminate].
  split_call_goal; split_call_goal; try discriminate.
  split_call_goal.
  - split_call_goal; split_call_goal; discriminate.
  - split_call_goal; discriminate.
Qed.

Lemma posix_named_phase_returns (fuel : nat) (n : string) (s : state W) :
  fst (posix_name_phase os fuel (Some n) s) <> OutOfFuel.
Proof.
  unfold posix_name_phase.
  cbv beta iota zeta delta [bind ret raise setattr getattr call].
  cbn [world self trace entropy cursor].
  split_call_goal; discriminate.
Qed.

Lemma posix_map_phase_returns (create : bool) (size : Z) (s : state W) :
  fst (posix_map_phase create size s) <> OutOfFuel.
Proof.
  unfold posix_map_phase.
  destruct (create && negb (size =? 0));
    cbv beta iota zeta delta
      [bind try_except ret raise setattr getattr call];
    cbn [world self trace entropy cursor];
    repeat (first [ discriminate
                  | split_call_goal
                  | match goal with
                    | |- context [is_OSError ?e] => destruct (is_OSError e)
                    end ]).
Qed.

End NamedOpen.

Section NamedOpenTheorem.

Context {W : Type} `{OS W}.
Variable os : os_module.

Lemma finish_returns (q : Z) (s : state W) : fst (finish q s) <> OutOfFuel.
Proof.
  unfold finish, bind, setattr, getattr, raise. cbn [self].
  destruct (_mmap (set_size (Some q) (self s))); discriminate.
Qed.

Lemma bind_returns {A B : Type} (m : M W A) (k : A -> M W B) (s : state W) :
  fst (m s) <> OutOfFuel ->
  (forall a s1, fst (k a s1) <> OutOfFuel) ->
  fst (bind m k s) <> OutOfFuel.
Proof.
  intros Hm Hk. unfold bind. destruct (m s) as [[a | e | ] s1].
  - apply Hk.
  - discriminate.
  - now elim Hm.
Qed.

Lemma register_phase_returns (q : Z) (s : state W) :
  fst (posix_register_phase q s) <> OutOfFuel.
Proof.
  unfold posix_register_phase.
  cbv beta iota zeta delta [bind ret getattr call].
  cbn [world self trace entropy cursor].
  split_call_goal; discriminate.
Qed.

(** X10: with a name supplied, an open never loops.  Its result is the
    same for every iteration budget of at least one, and it is never cut
    short: the run always ends with the handle returned or an exception
    raised. *)
Theorem named_open_never_retries
  (fuel : nat) (n : string) (create : bool) (size : Z) (s : state W) :
  _SharedMemory_init os (S fuel) (Some n) create size s
  = _SharedMemory_init os 1 (Some n) create size s
  /\ fst (_SharedMemory_init os 1 (Some n) create size s) <> OutOfFuel.
Proof.
  destruct (init_refused_or_valid os (Some n) create size s)
    as [(e & s1 & E & _) | Hv].
  { rewrite (E (S fuel)), (E 1%nat). split; [reflexivity | discriminate]. }
  rewrite !(init_valid os _ (Some n) create size s Hv).
  unfold platform_branch.
  destruct (_USE_POSIX os).
  - split; [reflexivity|].
    rewrite posix_branch_phases.
    apply bind_returns; [|intros q s1; apply finish_returns].
    apply bind_returns; [apply posix_named_phase_returns|].
    intros _ s1.
    apply bind_returns; [apply posix_map_phase_returns|].
    intros q s2. apply register_phase_returns.
  - destruct create.
    + destruct (windows_named_loop_once os fuel n size (checked os true s))
        as [Heq Hret].
      split.
      * unfold bind at 1 2 3 4. rewrite Heq. reflexivity.
      * apply bind_returns; [|intros q s1; apply finish_returns].
        apply bind_returns; [exact Hret|].
        intros _ s1. discriminate.
    + split; [reflexivity|].
      apply bind_returns; [|intros q s1; apply finish_returns].
      apply windows_attach_returns.
Qed.

End NamedOpenTheorem.

(** ** Creation under a generated name *)

Lemma candidate_generated {W : Type} (os : os_module) (s : state W) :
  generated_name os (candidate os s).
Proof.
  exists (hexlify (map (entropy s) (seq (cursor s) 4))).
  split; [reflexivity|]. split; [|apply hexlify_hex].
  rewrite hexlify_length. reflexivity.
Qed.

Section Generated.

Context {W : Type} `{OS W}.
Variable os : os_module.

Lemma posix_name_loop_generated (fuel : nat) :
  forall (s s' : state W) (nm : string),
    posix_name_loop os fuel s = (Ok nm, s') ->
    generated_name os nm /\ _name (self s') = Some nm.
Proof.
  induction fuel as [|fuel IH]; intros s s' nm Hrun.
  - discriminate.
  - cbn [posix_name_loop] in Hrun. unfold bind at 1 in Hrun.
    rewrite make_filename_run in Hrun.
    run_monad Hrun. cbn [world self trace entropy cursor after_token] in Hrun.
    split_call Hrun.
    + apply run_result_inv in Hrun. destruct Hrun as [Ho <-].
      injection Ho as <-. split; [apply (candidate_generated os s) | reflexivity].
    + destruct (is_FileExistsError e); [|discriminate].
      apply IH in Hrun. exact Hrun.
Qed.

Lemma windows_create_loop_generated (fuel : nat) (size : Z) :
  forall (s s' : state W),
    windows_create_loop os fuel None size s = (Ok tt, s') ->
    exists nm, generated_name os nm /\ _name (self s') = Some nm.
Proof.
  induction fuel as [|fuel IH]; intros s s' Hrun.
  - discriminate.
  - cbn [windows_create_loop] in Hrun. unfold bind at 1 in Hrun.
    rewrite make_filename_run in Hrun.
    run_monad Hrun. cbn [world self trace entropy cursor after_token] in Hrun.
    split_call Hrun; [|discriminate].
    split_call Hrun.
    + destruct (Z.eqb_spec v0 ERROR_ALREADY_EXISTS) as [Eq | Hcode].
      * split_call Hrun; try discriminate.
        apply IH in Hrun. exact Hrun.
      * split_call Hrun; split_call Hrun; try discriminate.
        apply run_result_inv in Hrun. destruct Hrun as [_ <-].
        eexists. split; [apply (candidate_generated os s) | reflexivity].
    + split_call Hrun; discriminate.
Qed.

(** X11: when the name is omitted and the open succeeds, the name the
    handle carries is a generated one, however many candidates collided
    first: the platform prefix followed by eight hexadecimal characters,
    thirteen characters in all. *)
Theorem omitted_name_is_generated
  (fuel : nat) (size : Z) (s s' : state W) :
  _SharedMemory_init os fuel None true size s = (Ok tt, s') ->
  exists nm,
    _name (self s') = Some nm
    /\ generated_name os nm
    /\ len nm = 13.
Proof.
  intros Hrun.
  assert (Hlen : forall nm, generated_name os nm -> len nm = 13).
  { intros nm (hex & -> & Hl & _). unfold len.
    rewrite append_length, prefix_length, Hl. reflexivity. }
  pose proof (init_ok_valid _ _ _ _ _ _ _ Hrun) as Hv.
  rewrite (init_valid os fuel None true size s Hv) in Hrun.
  unfold platform_branch in Hrun.
  destruct (_USE_POSIX os) eqn:Hp.
  - rewrite posix_branch_phases in Hrun. unfold bind at 1 2 in Hrun.
    unfold posix_name_phase in Hrun. unfold bind at 1 in Hrun.
    destruct (posix_name_loop os fuel (checked os true s))
      as [[nm | e | ] s1] eqn:Eloop; try discriminate.
    destruct (posix_name_loop_generated fuel _ _ _ Eloop) as [Hgen Hname].
    unfold ret at 1 in Hrun. unfold bind at 1 in Hrun.
    destruct (posix_map_phase true size s1) as [[q | e | ] s2] eqn:Emap;
      try discriminate.
    destruct (posix_map_phase_ok true size q s1 s2 Emap)
      as (pre2 & m & _ & Hs2).
    unfold posix_register_phase in Hrun. run_monad Hrun.
    cbn [world self trace entropy cursor] in Hrun.
    split_call Hrun; [|discriminate].
    fold (finish (W := W) q) in Hrun.
    rewrite (finish_run q _ {| mm_id := m; mm_fileno := _fd (self s1);
                               mm_length := q; mm_tagname := None;
                               mm_access := ACCESS_DEFAULT |}) in Hrun
      by (cbn [self]; rewrite Hs2; reflexivity).
    apply run_result_inv in Hrun. destruct Hrun as [_ <-].
    cbn [assigned self]. rewrite Hs2.
    exists nm. split; [exact Hname|]. split; [exact Hgen | apply Hlen, Hgen].
  - unfold bind at 1 2 in Hrun.
    destruct (windows_create_loop os fuel None size (checked os true s))
      as [[[] | e1 | ] s1] eqn:Eloop; try discriminate.
    destruct (windows_create_loop_generated fuel size _ _ Eloop)
      as (nm & Hgen & Hname).
    destruct (windows_create_loop_ok os fuel None size _ _ Eloop)
      as (pre & tname & h & code & m & r & _ & Hs1 & _).
    unfold ret in Hrun.
    rewrite (finish_run size s1 (creator_mapping m size tname)) in Hrun
      by (rewrite Hs1; reflexivity).
    apply run_result_inv in Hrun. destruct Hrun as [_ <-].
    cbn [assigned self].
    exists nm. split; [exact Hname|]. split; [exact Hgen | apply Hlen, Hgen].
Qed.

End Generated.

(** X11 on the reference kernel: a creation without a name on Linux. *)
Lemma omitted_name_is_generated_witness :
  exists nm,
    _name (self (snd (open_posix None true 100 Posix.empty))) = Some nm
    /\ generated_name linux nm
    /\ len nm = 13.
Proof.
  apply (omitted_name_is_generated linux 8 100 (boot linux Posix.empty)
           (snd (open_posix None true 100 Posix.empty))).
  vm_compute. reflexivity.
Defined.

(** ** Collisions of generated names *)

Section Retry.

Context {W : Type} `{OS W}.
Variable os : os_module.


(** X13: in the POSIX creation loop, when [shm_open] raises
    [FileExistsError] for the first candidate and returns a descriptor for
    the next one, the loop ends with the handle named after the second
    candidate and holding that descriptor; it has made these two calls and
    drawn eight bytes of entropy, four for each candidate. *)
Theorem posix_loop_retries_with_next_candidate
  (fuel : nat) (s : state W) (e : exn) (fd : Z) (w1 w2 : W) :
  os_call (shm_open (candidate os s) (_flags (self s)) (_mode (self s)))
          (world s) = (Raises e, w1) ->
  is_FileExistsError e = true ->
  os_call (shm_open (next_candidate os s) (_flags (self s)) (_mode (self s)))
          w1 = (Returns fd, w2) ->
  exists s',
    posix_name_loop os (S (S fuel)) s = (Ok (next_candidate os s), s')
    /\ _name (self s') = Some (next_candidate os s)
    /\ _fd (self s') = fd
    /\ world s' = w2
    /\ cursor s' = (cursor s + 8)%nat
    /\ trace s'
       = (trace s
          ++ [(shm_open (candidate os s) (_flags (self s)) (_mode (self s)),
               Raises e);
              (shm_open (next_candidate os s) (_flags (self s))
                 (_mode (self s)), Returns fd)])%list.
Proof.
  intros Hfirst Hex Hsecond.
  cbn [posix_name_loop]. unfold bind at 1. rewrite make_filename_run.
  cbv beta iota zeta delta [bind try_except ret getattr setattr call].
  cbn [world self trace entropy cursor after_token].
  fold (candidate os s). rewrite Hfirst, Hex.
  rewrite make_filename_run.
  cbn [world self trace entropy cursor after_token].
  fold (next_candidate os s). rewrite Hsecond.
  eexists. split; [reflexivity|].
  cbn [world self trace entropy cursor set_name set_fd _name _fd].
  repeat split.
  - lia.
  - rewrite <- app_assoc. reflexivity.
Qed.

(** X14: in the Windows creation loop with the name omitted, when the
    reservation of the first candidate reports [ERROR_ALREADY_EXISTS], its
    handle is closed before anything else is tried; when the reservation of
    the next candidate then reports another code and the mapping and the
    closing of that handle succeed, the loop ends with the handle named
    after the second candidate. *)
Theorem windows_loop_retries_with_next_candidate
  (fuel : nat) (size : Z) (s : state W)
  (h1 r1 h2 code m r2 : Z) (w1 w2 w3 w4 w5 w6 w7 : W) :
  os_call (CreateFileMapping INVALID_HANDLE_VALUE NULL PAGE_READWRITE
             (Z.land (Z.shiftr size 32) 0xFFFFFFFF) (Z.land size 0xFFFFFFFF)
             (candidate os s)) (world s) = (Returns h1, w1) ->
  os_call GetLastError w1 = (Returns ERROR_ALREADY_EXISTS, w2) ->
  os_call (CloseHandle h1) w2 = (Returns r1, w3) ->
  os_call (CreateFileMapping INVALID_HANDLE_VALUE NULL PAGE_READWRITE
             (Z.land (Z.shiftr size 32) 0xFFFFFFFF) (Z.land size 0xFFFFFFFF)
             (next_candidate os s)) w3 = (Returns h2, w4) ->
  os_call GetLastError w4 = (Returns code, w5) ->
  code <> ERROR_ALREADY_EXISTS ->
  os_call (mmap_mmap (-1) size (Some (next_candidate os s)) ACCESS_READ) w5
  = (Returns m, w6) ->
  os_call (CloseHandle h2) w6 = (Returns r2, w7) ->
  exists s',
    windows_create_loop os (S (S fuel)) None size s = (Ok tt, s')
    /\ _name (self s') = Some (next_candidate os s)
    /\ option_map mm_id (_mmap (self s')) = Some m
    /\ world s' = w7
    /\ calls (trace s')
       = (calls (trace s)
          ++ [CreateFileMapping INVALID_HANDLE_VALUE NULL PAGE_READWRITE
                (Z.land (Z.shiftr size 32) 0xFFFFFFFF)
                (Z.land size 0xFFFFFFFF) (candidate os s);
              GetLastError;
              CloseHandle h1;
              CreateFileMapping INVALID_HANDLE_VALUE NULL PAGE_READWRITE
                (Z.land (Z.shiftr size 32) 0xFFFFFFFF)
                (Z.land size 0xFFFFFFFF) (next_candidate os s);
              GetLastError;
              mmap_mmap (-1) size (Some (next_candidate os s)) ACCESS_READ;
              CloseHandle h2])%list.
Proof.
  intros Hres1 Herr1 Hclose1 Hres2 Herr2 Hcode Hmap Hclose2.
  cbn [windows_create_loop]. unfold bind at 1. rewrite make_filename_run.
  cbv beta iota zeta delta
    [bind try_finally ret raise getattr setattr call].
  cbn [world self trace entropy cursor after_token].
  fold (candidate os s). rewrite Hres1. cbn [world]. rewrite Herr1.
  rewrite Z.eqb_refl. cbn [world]. rewrite Hclose1.
  rewrite make_filename_run.
  cbn [world self trace entropy cursor after_token].
  fold (next_candidate os s). rewrite Hres2. cbn [world]. rewrite Herr2.
  apply Z.eqb_neq in Hcode. rewrite Hcode. cbn [world]. rewrite Hmap.
  cbn [world]. rewrite Hclose2.
  eexists. split; [reflexivity|].
  cbn [world self trace entropy cursor set_name set_mmap _name _mmap
       option_map mm_id].
  repeat split.
  unfold calls. rewrite !map_app. cbn [map fst]. rewrite <- !app_assoc.
  reflexivity.
Qed.

End Retry.


(** X13 on the reference kernel: the first candidate is taken. *)
Lemma posix_loop_retries_with_next_candidate_witness :
  exists s',
    posix_name_loop linux 2 posix_retrying = (Ok "/psm_9fc4e90e", s')
    /\ _name (self s') = Some "/psm_9fc4e90e"
    /\ cursor s' = 8%nat.
Proof.
  edestruct (posix_loop_retries_with_next_candidate linux 0 posix_retrying)
    as (s' & Hrun & Hname & _ & _ & Hcursor & _).
  - cbv. reflexivity.
  - reflexivity.
  - cbv. reflexivity.
  - exists s'. split; [exact Hrun|]. split; [exact Hname | exact Hcursor].
Defined.

(** X14 on the reference kernel: the first candidate is taken. *)
Lemma windows_loop_retries_with_next_candidate_witness :
  exists s',
    windows_create_loop nt 2 None 100 windows_retrying = (Ok tt, s')
    /\ _name (self s') = Some "wnsm_9fc4e90e"
    /\ Windows.sections (world s')
       = [("wnsm_9fc4e90e", 100); ("wnsm_0b30557a", 100)].
Proof.
  edestruct (windows_loop_retries_with_next_candidate nt 0 100 windows_retrying)
    as (s' & Hrun & Hname & _ & Hworld & _).
  - cbv. reflexivity.
  - cbv. reflexivity.
  - cbv. reflexivity.
  - cbv. reflexivity.
  - cbv. reflexivity.
  - discriminate.
  - cbv. reflexivity.
  - cbv. reflexivity.
  - exists s'. split; [exact Hrun|]. split; [exact Hname|].
    rewrite Hworld. reflexivity.
Defined.

(** ** Opens that fail at their first call *)

Section FirstCall.

Context {W : Type} `{OS W}.
Variable os : os_module.

(** X15: when the first call of an open by name raises, the open makes
    no other call and raises the same exception.  On POSIX, where the
    first call is [shm_open], the handle's [_name] and [_fd] are left as they
    were; on the Windows attach path, where it is [OpenFileMapping], [_name]
    has already been set to the requested name (line 137 precedes the
    call). *)
Theorem named_open_fails_at_first_call
  (fuel : nat) (n : string) (create : bool) (size : Z) (s : state W)
  (e : exn) (w : W) :
  valid_arguments os (Some n) create size s ->
  (_USE_POSIX os = true \/ create = false) ->
  os_call (if _USE_POSIX os
           then shm_open (if _prepend_leading_slash (self s)
                          then "/" ++ n else n)
                         (if create then Z.lor (_O_CREX os) (O_RDWR os)
                          else _flags (self s))
                         (_mode (self s))
           else OpenFileMapping FILE_MAP_READ false (Some n))
          (world s) = (Raises e, w) ->
  exists s',
    _SharedMemory_init os fuel (Some n) create size s = (Raise e, s')
    /\ world s' = w
    /\ calls (trace s')
       = (calls (trace s)
          ++ [if _USE_POSIX os
              then shm_open (if _prepend_leading_slash (self s)
                             then ("/" ++ n)%string else n)
                            (if create then Z.lor (_O_CREX os) (O_RDWR os)
                             else _flags (self s))
                            (_mode (self s))
              else OpenFileMapping FILE_MAP_READ false (Some n)])%list
    /\ _fd (self s') = _fd (self s)
    /\ _mmap (self s') = _mmap (self s)
    /\ _name (self s')
       = (if _USE_POSIX os then _name (self s) else Some n).
Proof.
  intros Hv Hpath Hcall.
  rewrite (init_valid os fuel (Some n) create size s Hv).
  unfold platform_branch.
  destruct (_USE_POSIX os) eqn:Hp.
  - rewrite posix_branch_phases. unfold posix_name_phase.
    cbv beta iota zeta delta [bind getattr call].
    assert (Hw : world (checked os create s) = world s)
      by (destruct create; reflexivity).
    assert (Hslash : _prepend_leading_slash (self (checked os create s))
                     = _prepend_leading_slash (self s))
      by (destruct create; reflexivity).
    assert (Hmode : _mode (self (checked os create s)) = _mode (self s))
      by (destruct create; reflexivity).
    assert (Hflags : _flags (self (checked os create s))
                     = if create then Z.lor (_O_CREX os) (O_RDWR os)
                       else _flags (self s))
      by (destruct create; reflexivity).
    rewrite Hw, Hslash, Hmode, Hflags, Hcall.
    eexists. split; [reflexivity|]. split; [reflexivity|].
    cbn [self trace]. unfold calls. rewrite map_app.
    destruct create; repeat split.
  - destruct Hpath as [Hc | ->]; [discriminate Hc|].
    unfold windows_attach, checked.
    cbv beta iota zeta delta [bind getattr setattr call].
    cbn [self world trace entropy cursor]. rewrite Hcall.
    eexists. split; [reflexivity|]. split; [reflexivity|].
    cbn [self trace]. unfold calls. rewrite map_app. repeat split.
Qed.

(** X16: a creation on Windows that succeeds records the requested size
    itself in the handle and opens its mapping with that length: unlike an
    attach, and unlike a creation on POSIX, it does not ask the system what
    size the object has. *)
Theorem windows_creator_keeps_requested_size
  (fuel : nat) (name : option string) (size : Z) (s s' : state W) :
  _USE_POSIX os = false ->
  _SharedMemory_init os fuel name true size s = (Ok tt, s') ->
  _size (self s') = Some size
  /\ option_map mm_length (_mmap (self s')) = Some size
  /\ 0 < size.
Proof.
  intros Hnt Hrun.
  pose proof (init_ok_valid _ _ _ _ _ _ _ Hrun) as (Hge & Hnz & _).
  destruct (windows_created os fuel name size s s' Hnt Hrun)
    as (pre & tname & h & code & m & r & _ & _ & _ & Hmap & _ & Hsize & _).
  split; [exact Hsize|]. split; [rewrite Hmap; reflexivity|].
  specialize (Hnz eq_refl). lia.
Qed.

End FirstCall.

(** X15 on the reference kernels: attaching to a name that does not
    exist, on Linux and on Windows. *)
Lemma named_open_fails_at_first_call_witness :
  (exists s',
     _SharedMemory_init linux 8 (Some "none") false 0 (boot linux Posix.empty)
     = (Raise (FileNotFoundError 2 "No such file or directory"
                 (Some "/none")), s')
     /\ calls (trace s') = [shm_open "/none" 2 384]
     /\ _name (self s') = None)
  /\ (exists s',
        _SharedMemory_init nt 8 (Some "none") false 0 (boot nt Windows.empty)
        = (Raise (FileNotFoundError 2
                    "The system cannot find the file specified"
                    (Some "none")), s')
        /\ calls (trace s') = [OpenFileMapping 4 false (Some "none")]
        /\ _name (self s') = Some "none").
Proof.
  split.
  - edestruct (named_open_fails_at_first_call linux 8 "none" false 0
                 (boot linux Posix.empty))
      as (s' & Hrun & _ & Hcalls & _ & _ & Hname).
    + split; [lia|]. split; discriminate.
    + left. reflexivity.
    + cbv. reflexivity.
    + exists s'. split; [exact Hrun|]. split; [exact Hcalls | exact Hname].
  - edestruct (named_open_fails_at_first_call nt 8 "none" false 0
                 (boot nt Windows.empty))
      as (s' & Hrun & _ & Hcalls & _ & _ & Hname).
    + split; [lia|]. split; discriminate.
    + right. reflexivity.
    + cbv. reflexivity.
    + exists s'. split; [exact Hrun|]. split; [exact Hcalls | exact Hname].
Defined.

(** X16 on the reference kernel. *)
Lemma windows_creator_keeps_requested_size_witness :
  _size (self (snd windows_create_t)) = Some 100
  /\ option_map mm_length (_mmap (self (snd windows_create_t))) = Some 100
  /\ 0 < 100.
Proof.
  apply (windows_creator_keeps_requested_size nt 8 (Some "t") 100
           (boot nt Windows.empty) (snd windows_create_t) eq_refl).
  vm_compute. reflexivity.
Defined.
